(** * PR statement generator: the generate / evaluate workflow

    A shallow embedding of [services/pr_generator.py], [models.py] and the
    start-up path of [main.py].  The two remote model calls are the only
    effects of the workflow; they are taken as parameters of the
    development (a provider with a state of its own), and every call that
    the program makes is recorded, with its prompt and its reply, so that
    statements about how often and with which prompt the provider is called
    can be made.  Logging is left out, and the one [await] of the program is
    a plain sequential call here.  The graph runner is the library's; it is
    modelled with the step limit that ends a run which does not reach [END]
    (the parameter [fuel] of the definitions; the program runs at the
    library's default). *)

From stdpp Require Import gmap strings list fin_maps.

(** ** Exceptions and outcomes *)

(** The exception classes that occur in the program.  [APIError] stands for
    whatever the Groq client raises on a failed request (network,
    authentication, quota); [ValidationError] is what pydantic raises when
    the evaluator's reply does not fit the [Feedback] schema;
    [GraphRecursionError] is what the graph runner raises when a run has
    used up its step limit.  All of them derive from Python's
    [Exception]. *)
Inductive Exception : Type :=
  | RuntimeError (msg : string)
  | ValueError (msg : string)
  | KeyError (key : string)
  | ValidationError (msg : string)
  | APIError (msg : string)
  | HTTPException (status_code : nat) (detail : string)
  | GraphRecursionError (msg : string).

(** The spec's two error families, as classes of the exceptions above. *)
Definition ConfigurationError (e : Exception) : bool :=
  match e with
  | RuntimeError _ | ValueError _ => true
  | _ => false
  end.

Definition ProviderError (e : Exception) : bool :=
  match e with
  | ValidationError _ | APIError _ => true
  | _ => false
  end.

(** Reply of one call that cannot loop. *)
Inductive Result (A : Type) : Type :=
  | Ok (a : A)
  | Err (e : Exception).
Arguments Ok {A} a.
Arguments Err {A} e.

(** Outcome of a computation: a value, a raised exception, or no answer at
    all ([Diverge]: a computation that does not come back, which no handler
    of the program sees).  The provider of this development always replies
    and the graph runner stops at its step limit, so no run below ends in
    [Diverge]; the handlers are defined on it all the same. *)
Inductive Outcome (A : Type) : Type :=
  | Ret (a : A)
  | Exc (e : Exception)
  | Diverge.
Arguments Ret {A} a.
Arguments Exc {A} e.
Arguments Diverge {A}.

Definition of_result {A} (r : Result A) : Outcome A :=
  match r with
  | Ok a => Ret a
  | Err e => Exc e
  end.

(** ** models.py *)

(** [Feedback]: the schema of the evaluator's structured output. *)
Record Feedback : Type := mkFeedback {
  fb_grade : string;
  fb_feedback : string
}.

(** What the provider sends back before pydantic has looked at it: either
    field may be missing and the grade may be any string. *)
Record RawFeedback : Type := mkRaw {
  raw_grade : option string;
  raw_feedback : option string
}.

(** [grade: Literal["good", "needs improvement"]]. *)
Definition grade_literal (g : string) : bool :=
  String.eqb g "good" || String.eqb g "needs improvement".

(** Construction of a [Feedback] from a reply: both fields are required and
    the grade has to be one of the two literals. *)
Definition Feedback_validate (r : RawFeedback) : Result Feedback :=
  match raw_grade r, raw_feedback r with
  | Some g, Some f =>
      if grade_literal g then Ok (mkFeedback g f)
      else Err (ValidationError "grade: Input should be 'good' or 'needs improvement'")
  | None, _ => Err (ValidationError "grade: Field required")
  | _, None => Err (ValidationError "feedback: Field required")
  end.

(** A string of the program is held here as the bytes of its UTF-8 form.
    Python counts the characters (code points) of a string, that is the
    bytes that do not continue a character: those not of the form
    [10xxxxxx]. *)
Definition continuation_byte (c : Ascii.ascii) : bool :=
  match c with
  | Ascii.Ascii _ _ _ _ _ _ b6 b7 => b7 && negb b6
  end.

Fixpoint code_points (s : string) : nat :=
  match s with
  | EmptyString => 0
  | String c rest =>
      if continuation_byte c then code_points rest else S (code_points rest)
  end.

(** [PRStatementRequest.topic]: [min_length=1, max_length=500]. *)
Definition valid_topic (topic : string) : bool :=
  Nat.leb 1 (code_points topic) && Nat.leb (code_points topic) 500.

(** [State]: a [TypedDict] whose four keys all hold strings.  The workflow
    starts from a dictionary that has the key [topic] only, so a state is a
    finite map from key names to strings. *)
Abbreviation State := (gmap string string).

(** [state[key]]. *)
Definition getitem (st : State) (key : string) : Result string :=
  match st !! key with
  | Some v => Ok v
  | None => Err (KeyError key)
  end.

(** Truth value of [state.get(key)]: the key is there and its string is not
    empty. *)
Definition get_truthy (st : State) (key : string) : option string :=
  match st !! key with
  | Some EmptyString => None
  | Some v => Some v
  | None => None
  end.

(** ** The remote provider and the effects of the workflow *)

(** The Groq service, seen from the program: a chat completion returns text
    or fails, a completion with structured output returns the fields of a
    reply or fails.  The provider has a state of its own ([World]), so two
    calls with the same prompt need not give the same reply. *)
Class Provider (World : Type) : Type := {
  chat_completion : string -> string -> World -> Result string * World;
  structured_completion : string -> string -> World -> Result RawFeedback * World
}.

(** One entry per call that reached the provider, in the order of the calls. *)
Inductive Event : Type :=
  | Generation (prompt : string) (reply : Result string)
  | Evaluation (prompt : string) (reply : Result Feedback).

Definition is_generation (ev : Event) : bool :=
  match ev with Generation _ _ => true | Evaluation _ _ => false end.

Definition is_evaluation (ev : Event) : bool :=
  match ev with Generation _ _ => false | Evaluation _ _ => true end.

Definition failed (ev : Event) : option Exception :=
  match ev with
  | Generation _ (Err e) | Evaluation _ (Err e) => Some e
  | _ => None
  end.

Definition generation_calls (t : list Event) : nat :=
  length (filter (fun ev => is_generation ev = true) t).

Definition evaluation_calls (t : list Event) : nat :=
  length (filter (fun ev => is_evaluation ev = true) t).

(** A computation threads the provider's state and writes the calls it made. *)
Definition M (World A : Type) : Type := World -> Outcome A * World * list Event.

Section Monad.
Context {World : Type}.

Definition ret {A} (a : A) : M World A := fun w => (Ret a, w, []).

Definition raise {A} (e : Exception) : M World A := fun w => (Exc e, w, []).

Definition bind {A B} (m : M World A) (f : A -> M World B) : M World B :=
  fun w =>
    match m w with
    | (Ret a, w1, t1) =>
        match f a w1 with
        | (o, w2, t2) => (o, w2, t1 ++ t2)
        end
    | (Exc e, w1, t1) => (Exc e, w1, t1)
    | (Diverge, w1, t1) => (Diverge, w1, t1)
    end.

Definition lift {A} (r : Result A) : M World A :=
  fun w => (of_result r, w, []).

(** [try: body  except Exception as e: handler e]. *)
Definition try_except {A} (body : M World A) (handler : Exception -> M World A)
  : M World A :=
  fun w =>
    match body w with
    | (Exc e, w1, t1) =>
        match handler e w1 with
        | (o, w2, t2) => (o, w2, t1 ++ t2)
        end
    | r => r
    end.
End Monad.

Notation "'let*' x ':=' m 'in' k" := (bind m (fun x => k))
  (at level 10, x name, m at level 100, k at level 200).

(** Projections of a finished run. *)
Definition outcome {World A} (r : Outcome A * World * list Event) : Outcome A :=
  fst (fst r).
Definition world_of {World A} (r : Outcome A * World * list Event) : World :=
  snd (fst r).
Definition calls {World A} (r : Outcome A * World * list Event) : list Event :=
  snd r.

(** ** services/pr_generator.py *)

(** The two handles.  [ChatGroq(model_name=...)] and the evaluator derived
    from it by [with_structured_output(Feedback)]. *)
Record ChatGroq : Type := { model_name : string }.
Record StructuredLLM : Type := { bound : ChatGroq }.

Definition with_structured_output (llm : ChatGroq) : StructuredLLM :=
  {| bound := llm |}.

(** The module globals [_llm] and [_evaluator]. *)
Record Handles : Type := {
  _llm : option ChatGroq;
  _evaluator : option StructuredLLM
}.

Definition MODEL : string := "meta-llama/llama-4-scout-17b-16e-instruct".

Definition START : string := "__start__".
Definition END : string := "__end__".

(** Text of the prompts and of the fallback, as the f-strings spell them. *)
Definition generation_prompt (topic : string) : string :=
  "
        Generate a compelling PR statement for the topic " +:+ topic +:+ ".

        - The statement should highlight key benefits, address any potential concerns, and capture the excitement and innovation surrounding the subject.
        - Ensure that the tone is professional yet engaging, appealing to the target audience while maintaining clarity and impact.".

Definition feedback_clause (feedback : string) : string :=
  " Also take provided feedback into account: " +:+ feedback.

Definition evaluation_prompt (pr_statement : string) : string :=
  "
        Review the following PR statement: " +:+ pr_statement +:+ ".

        - Assess its clarity, engagement, and overall effectiveness in capturing the key benefits and addressing potential concerns.
        - Decide whether the statement is well-formed ('good') or if it requires further refinement ('needs improvement').
        - If it needs improvement, please provide concise and actionable feedback on how to enhance the statement.".

Definition fallback_statement (topic : string) : string :=
  "FOR IMMEDIATE RELEASE

        [Company Name] Announces Exciting Development in " +:+ topic +:+ "
        ...".

Section Workflow.
Context {World : Type} `{Provider World}.

(** [_llm.invoke(prompt)] followed by [.content]. *)
Definition llm_invoke (llm : ChatGroq) (prompt : string) : M World string :=
  fun w =>
    match chat_completion (model_name llm) prompt w with
    | (r, w') => (of_result r, w', [Generation prompt r])
    end.

(** [_evaluator.invoke(prompt)]: the reply is parsed into a [Feedback]. *)
Definition evaluator_invoke (ev : StructuredLLM) (prompt : string)
  : M World Feedback :=
  fun w =>
    match structured_completion (model_name (bound ev)) prompt w with
    | (r, w') =>
        let v := match r with
                 | Ok raw => Feedback_validate raw
                 | Err e => Err e
                 end in
        (of_result v, w', [Evaluation prompt v])
    end.

Definition generate_pr_statement_node (g : Handles) (state : State)
  : M World State :=
  try_except
    (match _llm g with
     | None => raise (RuntimeError "LLM not initialized. Call initialize_llm() first.")
     | Some llm =>
         let* topic := lift (getitem state "topic") in
         let prompt := generation_prompt topic in
         let* content :=
           match get_truthy state "feedback" with
           | Some feedback => llm_invoke llm (prompt +:+ feedback_clause feedback)
           | None => llm_invoke llm prompt
           end in
         ret {[ "pr_statement" := content ]}
     end)
    (fun e => raise e).

Definition evaluate_pr_statement_node (g : Handles) (state : State)
  : M World State :=
  try_except
    (match _evaluator g with
     | None => raise (RuntimeError "Evaluator not initialized. Call initialize_llm() first.")
     | Some ev =>
         let* pr_statement := lift (getitem state "pr_statement") in
         let prompt := evaluation_prompt pr_statement in
         let* decision := evaluator_invoke ev prompt in
         ret (<[ "grade" := fb_grade decision ]>
                {[ "feedback" := fb_feedback decision ]})
     end)
    (fun e => raise e).

Definition route_statement (state : State) : Result string :=
  match getitem state "grade" with
  | Ok grade =>
      if String.eqb grade "good" then Ok "Accepted"
      else Ok "Rejected + Feedback"
  | Err e => Err e
  end.

(** *** The graph and its runner *)

Record StateGraph : Type := {
  nodes : list (string * (Handles -> State -> M World State));
  edges : list (string * string);
  branches : list (string * ((State -> Result string) * list (string * string)))
}.

Definition empty_graph : StateGraph :=
  {| nodes := []; edges := []; branches := [] |}.

Definition add_node (name : string) (action : Handles -> State -> M World State)
    (g : StateGraph) : StateGraph :=
  {| nodes := nodes g ++ [(name, action)];
     edges := edges g;
     branches := branches g |}.

Definition add_edge (src dst : string) (g : StateGraph) : StateGraph :=
  {| nodes := nodes g;
     edges := edges g ++ [(src, dst)];
     branches := branches g |}.

Definition add_conditional_edges (src : string) (path : State -> Result string)
    (path_map : list (string * string)) (g : StateGraph) : StateGraph :=
  {| nodes := nodes g;
     edges := edges g;
     branches := branches g ++ [(src, (path, path_map))] |}.

Fixpoint assoc {A} (key : string) (l : list (string * A)) : option A :=
  match l with
  | [] => None
  | (k, v) :: rest => if String.eqb key k then Some v else assoc key rest
  end.

(** The graph of [build_workflow], before [compile()]. *)
Definition workflow : StateGraph :=
  add_conditional_edges "Evaluate_PR_Statement" route_statement
    [("Accepted", END); ("Rejected + Feedback", "Generate_PR_Statement")]
    (add_edge "Generate_PR_Statement" "Evaluate_PR_Statement"
       (add_edge START "Generate_PR_Statement"
          (add_node "Evaluate_PR_Statement" evaluate_pr_statement_node
             (add_node "Generate_PR_Statement" generate_pr_statement_node
                empty_graph)))).

(** Where the run goes after node [n]: through the conditional edge of
    [n] when it has one, along its plain edge otherwise. *)
Definition successor (g : StateGraph) (n : string) (state : State)
  : Result string :=
  match assoc n (branches g) with
  | Some (path, path_map) =>
      match path state with
      | Ok label =>
          match assoc label path_map with
          | Some dst => Ok dst
          | None => Err (KeyError label)
          end
      | Err e => Err e
      end
  | None =>
      match assoc n (edges g) with
      | Some dst => Ok dst
      | None => Ok END
      end
  end.

(** The default of the runner's [recursion_limit]: the program calls
    [ainvoke] without a config, so this is the limit of its runs. *)
Definition DEFAULT_RECURSION_LIMIT : nat := 25.

Definition recursion_error : Exception :=
  GraphRecursionError "Recursion limit reached without hitting a stop condition.".

(** Runs the graph from node [n]: the node's update is written over the
    state, key by key, and the run goes on at the successor.  [fuel] is the
    step limit of the runner, one unit per node that is run: a run that has
    used it up without reaching [END] raises [GraphRecursionError]. *)
Fixpoint run_from (fuel : nat) (g : StateGraph) (h : Handles) (n : string)
    (state : State) : M World State :=
  if String.eqb n END then ret state
  else
    match fuel with
    | O => raise recursion_error
    | S fuel' =>
        match assoc n (nodes g) with
        | None => raise (ValueError n)
        | Some action =>
            let* update := action h state in
            let state' := update ∪ state in
            let* next := lift (successor g n state') in
            run_from fuel' g h next state'
        end
    end.

(** [graph.ainvoke(input)], with [fuel] as the step limit of the run. *)
Definition ainvoke (fuel : nat) (g : StateGraph) (h : Handles) (input : State)
  : M World State :=
  let* first := lift (successor g START input) in
  run_from fuel g h first input.

(** The module globals of [services/pr_generator.py]. *)
Record Service : Type := {
  handles : Handles;
  _workflow_graph : option StateGraph
}.

Definition uninitialized : Service :=
  {| handles := {| _llm := None; _evaluator := None |};
     _workflow_graph := None |}.

(** The [try] block of [generate_pr_statement(topic)].  [fuel] is the step
    limit under which the graph runs; for the program it is
    [DEFAULT_RECURSION_LIMIT]. *)
Definition generate_pr_statement_try (fuel : nat) (s : Service)
    (topic : string) : M World string :=
  match _workflow_graph s with
  | None =>
      raise (RuntimeError "Workflow not initialized. Call initialize_pr_generator() first.")
  | Some graph =>
      let* result := ainvoke fuel graph (handles s) {[ "topic" := topic ]} in
      lift (getitem result "pr_statement")
  end.

(** [generate_pr_statement(topic)]: the block above, and the [except
    Exception] clause that answers with the fallback text. *)
Definition generate_pr_statement (fuel : nat) (s : Service) (topic : string)
  : M World string :=
  try_except
    (generate_pr_statement_try fuel s topic)
    (fun api_error => ret (fallback_statement topic)).

(** *** Start-up *)

(** [initialize_llm()]: reads the key from the environment ([environ] is
    the environment after [load_dotenv()]); a missing or empty key is a
    [ValueError], logged and raised again. *)
Definition initialize_llm (environ : gmap string string) (s : Service)
  : Result unit * gmap string string * Service :=
  match get_truthy environ "GROQ_API_KEY" with
  | None =>
      (Err (ValueError "GROQ_API_KEY not found in environment variables"),
       environ, s)
  | Some groq_api_key =>
      let llm := {| model_name := MODEL |} in
      (Ok tt,
       <[ "GROQ_API_KEY" := groq_api_key ]> environ,
       {| handles := {| _llm := Some llm;
                        _evaluator := Some (with_structured_output llm) |};
          _workflow_graph := _workflow_graph s |})
  end.

Definition build_workflow (s : Service) : Result unit * Service :=
  (Ok tt, {| handles := handles s; _workflow_graph := Some workflow |}).

Definition initialize_pr_generator (environ : gmap string string) (s : Service)
  : Result unit * gmap string string * Service :=
  match initialize_llm environ s with
  | (Ok _, environ', s') =>
      match build_workflow s' with
      | (r, s'') => (r, environ', s'')
      end
  | (Err e, environ', s') => (Err e, environ', s')
  end.

(** ** main.py *)

Record App : Type := {
  environ : gmap string string;
  service : Service;
  _pr_generator_initialized : bool
}.

Definition fresh_app (env : gmap string string) : App :=
  {| environ := env; service := uninitialized;
     _pr_generator_initialized := false |}.

(** The part of [lifespan] that runs before [yield]. *)
Definition lifespan_startup (app : App) : Result unit * App :=
  match initialize_pr_generator (environ app) (service app) with
  | (Ok _, env', s') =>
      (Ok tt, {| environ := env'; service := s';
                 _pr_generator_initialized := true |})
  | (Err e, env', s') =>
      (Err e, {| environ := env'; service := s';
                 _pr_generator_initialized := _pr_generator_initialized app |})
  end.

Record PRStatementResponse : Type := {
  pr_statement : string;
  status : string;
  message : string
}.

Definition str (e : Exception) : string :=
  match e with
  | RuntimeError m | ValueError m | ValidationError m | APIError m
  | GraphRecursionError m => m
  | KeyError k => "'" +:+ k +:+ "'"
  | HTTPException _ d => d
  end.

Definition generate_pr_statement_endpoint (fuel : nat) (app : App)
    (topic : string) : M World PRStatementResponse :=
  try_except
    (if _pr_generator_initialized app then
       let* text := generate_pr_statement fuel (service app) topic in
       ret {| pr_statement := text;
              status := "success";
              message := "PR statement generated successfully" |}
     else raise (HTTPException 503 "PR Generator Service is not available"))
    (fun e =>
       match e with
       | HTTPException _ _ => raise e
       | _ => raise (HTTPException 500 ("Failed to generate PR statement: " +:+ str e))
       end).

(** What a client gets for one request. *)
Inductive HttpReply : Type :=
  | Json200 (body : PRStatementResponse)
  | HttpError (status_code : nat) (detail : string).

(** One request through validation of its body and the endpoint. *)
Definition handle_request (fuel : nat) (app : App) (topic : string)
  : M World HttpReply :=
  if valid_topic topic then
    try_except
      (let* body := generate_pr_statement_endpoint fuel app topic in
       ret (Json200 body))
      (fun e =>
         match e with
         | HTTPException code detail => ret (HttpError code detail)
         | _ => ret (HttpError 500 "Internal server error occurred")
         end)
  else ret (HttpError 422 "topic").

Fixpoint handle_all (fuel : nat) (app : App) (topics : list string)
  : M World (list HttpReply) :=
  match topics with
  | [] => ret []
  | topic :: rest =>
      let* reply := handle_request fuel app topic in
      let* replies := handle_all fuel app rest in
      ret (reply :: replies)
  end.

(** The life of the process: requests are taken only once the start-up
    part of [lifespan] has returned; when it raises, the server stops. *)
Definition serve (fuel : nat) (app : App) (topics : list string)
  : M World (list HttpReply) :=
  match lifespan_startup app with
  | (Ok _, app') => handle_all fuel app' topics
  | (Err e, _) => raise e
  end.
End Workflow.

(** ** Two providers to run the program on *)

(** A provider that replays two lists of replies, one for each kind of call,
    and fails when a list is used up. *)
Record Script : Type := {
  gen_replies : list (Result string);
  eval_replies : list (Result RawFeedback)
}.

#[export] Instance scripted : Provider Script := {
  chat_completion _ _ w :=
    match gen_replies w with
    | r :: rest => (r, {| gen_replies := rest; eval_replies := eval_replies w |})
    | [] => (Err (APIError "no reply left"), w)
    end;
  structured_completion _ _ w :=
    match eval_replies w with
    | r :: rest => (r, {| gen_replies := gen_replies w; eval_replies := rest |})
    | [] => (Err (APIError "no reply left"), w)
    end
}.

(** A provider whose evaluator never accepts. *)
#[export] Instance stubborn : Provider unit := {
  chat_completion _ _ w := (Ok "Draft", w);
  structured_completion _ _ w :=
    (Ok {| raw_grade := Some "needs improvement";
           raw_feedback := Some "add benefits" |}, w)
}.

Definition raw (grade feedback : string) : Result RawFeedback :=
  Ok {| raw_grade := Some grade; raw_feedback := Some feedback |}.

(** The handles and the service as [initialize_pr_generator] leaves them. *)
Definition ready : Handles :=
  let llm := {| model_name := MODEL |} in
  {| _llm := Some llm; _evaluator := Some (with_structured_output llm) |}.

Definition ready_service {World} `{Provider World} : Service :=
  {| handles := ready; _workflow_graph := Some workflow |}.


(** Scripts for the scenarios that the statements are tried on. *)
Definition first_pass : Script :=
  {| gen_replies := [Ok "Statement A"];
     eval_replies := [raw "good" EmptyString] |}.

Definition second_pass : Script :=
  {| gen_replies := [Ok "Draft"; Ok "Final"];
     eval_replies := [raw "needs improvement" "add benefits";
                      raw "good" EmptyString] |}.

Definition provider_down : Script :=
  {| gen_replies := [Err (APIError "connection refused")];
     eval_replies := [] |}.

Definition empty_reply : Script :=
  {| gen_replies := [Ok EmptyString];
     eval_replies := [raw "good" EmptyString] |}.

Definition bad_grade : Script :=
  {| gen_replies := [];
     eval_replies := [raw "excellent" "none"] |}.

(** A state as the generation node leaves it. *)
Definition drafted : State :=
  <[ "pr_statement" := "Draft" ]> {[ "topic" := "X" ]}.

(** A script whose evaluator answers with a grade outside the schema. *)
Definition bad_grade_run : Script :=
  {| gen_replies := [Ok "Draft"];
     eval_replies := [raw "excellent" "none"] |}.

(** ** Derived notions used in the statements *)

(** The prompt of a generation step, as a function of the topic and of the
    feedback that the state holds ([None]: no feedback, or an empty one). *)
Definition generation_request (topic : string) (feedback : option string)
  : string :=
  match feedback with
  | Some f => generation_prompt topic +:+ feedback_clause f
  | None => generation_prompt topic
  end.

Definition truthy (s : string) : option string :=
  match s with
  | EmptyString => None
  | _ => Some s
  end.

(** What [_evaluator.invoke] makes of the provider's reply. *)
Definition parse (r : Result RawFeedback) : Result Feedback :=
  match r with
  | Ok raw => Feedback_validate raw
  | Err e => Err e
  end.

(** The update that the evaluation node returns for a decision. *)
Definition evaluation_update (d : Feedback) : State :=
  <[ "grade" := fb_grade d ]> {[ "feedback" := fb_feedback d ]}.

(** Puts calls made earlier in front of the calls of a run. *)
Definition after {World A} (t : list Event) (r : Outcome A * World * list Event)
  : Outcome A * World * list Event :=
  match r with
  | (o, w, t') => (o, w, t ++ t')
  end.

(** Every generation prompt in [t] is the one for [topic] and the feedback
    of the evaluation just before it ([latest] at the start), and nothing
    follows a failed evaluation. *)
Fixpoint feedback_chain (topic : string) (latest : option string)
    (t : list Event) : bool :=
  match t with
  | [] => true
  | Generation p _ :: rest =>
      String.eqb p (generation_request topic latest)
      && feedback_chain topic latest rest
  | Evaluation _ (Ok d) :: rest =>
      feedback_chain topic (truthy (fb_feedback d)) rest
  | Evaluation _ (Err _) :: rest =>
      match rest with [] => true | _ => false end
  end.

(** The shape of a run of the workflow that starts at the generation node
    with [latest] as the feedback in the state: the calls it makes and how
    it ends.  Rounds that end in a rejection are followed by the rest of the
    run; every other round is the last one. *)
Inductive Run (topic : string) : option string -> list Event -> Outcome State -> Prop :=
  | Run_no_fuel_generate latest :
      Run topic latest [] (Exc recursion_error)
  | Run_generate_fails latest e :
      Run topic latest [Generation (generation_request topic latest) (Err e)] (Exc e)
  | Run_no_fuel_evaluate latest s :
      Run topic latest [Generation (generation_request topic latest) (Ok s)]
        (Exc recursion_error)
  | Run_evaluate_fails latest s e :
      Run topic latest
        [Generation (generation_request topic latest) (Ok s);
         Evaluation (evaluation_prompt s) (Err e)] (Exc e)
  | Run_accepted latest s d final :
      fb_grade d = "good" ->
      final !! "pr_statement" = Some s ->
      final !! "topic" = Some topic ->
      Run topic latest
        [Generation (generation_request topic latest) (Ok s);
         Evaluation (evaluation_prompt s) (Ok d)] (Ret final)
  | Run_rejected latest s d t o :
      fb_grade d <> "good" ->
      Run topic (truthy (fb_feedback d)) t o ->
      Run topic latest
        (Generation (generation_request topic latest) (Ok s)
           :: Evaluation (evaluation_prompt s) (Ok d) :: t) o.

(** ** Further notions: the shape of traces, final states and replies *)

(** The calls come in pairs, a generation and then the evaluation of the
    text that this generation returned; a generation that failed, or one
    that no evaluation follows, can only stand at the end. *)
Fixpoint well_paired (t : list Event) : bool :=
  match t with
  | [] => true
  | Generation _ (Err _) :: rest =>
      match rest with [] => true | _ => false end
  | Generation _ (Ok s) :: rest =>
      match rest with
      | [] => true
      | Evaluation q _ :: rest' =>
          String.eqb q (evaluation_prompt s) && well_paired rest'
      | Generation _ _ :: _ => false
      end
  | Evaluation _ _ :: _ => false
  end.

(** An evaluation that succeeded carries one of the two grades. *)
Definition graded (ev : Event) : Prop :=
  match ev with
  | Evaluation _ (Ok d) => grade_literal (fb_grade d) = true
  | _ => True
  end.

(** The keys of [State]. *)
Definition state_keys : gset string :=
  {[ "pr_statement"; "topic"; "grade"; "feedback" ]}.

(** A provider script that rejects [n] drafts and accepts the next text. *)
Definition rejecting (n : nat) : Script :=
  {| gen_replies := replicate n (Ok "Draft") ++ [Ok "Final"];
     eval_replies := replicate n (raw "needs improvement" "add benefits")
                       ++ [raw "good" EmptyString] |}.

(** The body of the response that the endpoint builds around a text. *)
Definition success_body (text : string) : PRStatementResponse :=
  {| pr_statement := text;
     status := "success";
     message := "PR statement generated successfully" |}.

(** The application once [lifespan] has started it in environment [env]. *)
Definition started {World} `{Provider World} (env : gmap string string) : App :=
  {| environ := env; service := ready_service;
     _pr_generator_initialized := true |}.

(** The environment of the test suite, and a script whose evaluator rejects
    a text without saying why. *)
Definition test_env : gmap string string :=
  {[ "GROQ_API_KEY" := "test-api-key" ]}.

Definition silent_rejection : Script :=
  {| gen_replies := [Ok "Draft"; Ok "Final"];
     eval_replies := [raw "needs improvement" EmptyString;
                      raw "good" EmptyString] |}.

(** What a started server may answer to a request for [topic]. *)
Definition answered (topic : string) (reply : HttpReply) : Prop :=
  if valid_topic topic then exists text, reply = Json200 (success_body text)
  else reply = HttpError 422 "topic".

(** * Properties *)

(** Characters are counted, not bytes: the topic of the encoding test has
    13 characters in 29 bytes. *)
Example code_points_of_test_topic :
  code_points "AI革命 - 人工智能突破" = 13
  /\ String.length "AI革命 - 人工智能突破" = 29
  /\ valid_topic "AI革命 - 人工智能突破" = true.
Proof. repeat split. Qed.

Lemma append_empty (s : string) : s +:+ EmptyString = s.
Proof.
  induction s as [|c s IH]; [reflexivity|].
  change (String c (s +:+ EmptyString) = String c s). rewrite IH. reflexivity.
Qed.

Lemma append_assoc (s1 s2 s3 : string) : (s1 +:+ s2) +:+ s3 = s1 +:+ (s2 +:+ s3).
Proof.
  induction s1 as [|c s1 IH]; [reflexivity|].
  change (String c ((s1 +:+ s2) +:+ s3) = String c (s1 +:+ (s2 +:+ s3))).
  rewrite IH. reflexivity.
Qed.

(** The feedback, when there is one, stands at the end of the prompt. *)
Lemma request_ends_with_feedback (topic feedback : string) :
  exists before, generation_request topic (truthy feedback) = before +:+ feedback.
Proof.
  destruct feedback as [|c f].
  - exists (generation_prompt topic). cbn [truthy generation_request].
    symmetry. apply append_empty.
  - exists (generation_prompt topic +:+ " Also take provided feedback into account: ").
    cbn [truthy generation_request]. unfold feedback_clause.
    symmetry. apply append_assoc.
Qed.

(** *** What the shape of a run says about its calls *)

Lemma Run_chain (topic : string) (latest : option string) (t : list Event)
    (o : Outcome State) :
  Run topic latest t o -> feedback_chain topic latest t = true.
Proof.
  induction 1; cbn [feedback_chain]; rewrite ?String.eqb_refl; auto.
Qed.

(** No call comes after a call that failed, and the run ends with the
    exception of that call. *)
Lemma Run_failed_last (topic : string) (latest : option string)
    (t : list Event) (o : Outcome State) :
  Run topic latest t o ->
  forall pre ev post e,
    t = pre ++ ev :: post -> failed ev = Some e -> post = [] /\ o = Exc e.
Proof.
  induction 1; intros pre ev post e0 Heq Hfail;
    destruct pre as [|x1 [|x2 pre]]; simplify_eq/=; eauto;
    try (destruct pre; discriminate).
Qed.

(** A run that opens with a failed call has made no evaluation call. *)
Lemma Run_failed_first (topic : string) (latest : option string)
    (ev : Event) (post : list Event) (o : Outcome State) (e : Exception) :
  Run topic latest (ev :: post) o -> failed ev = Some e ->
  evaluation_calls (ev :: post) = 0.
Proof.
  intros HR Hfail.
  destruct (Run_failed_last _ _ _ _ HR [] ev post e eq_refl Hfail) as [-> _].
  inversion HR; subst; cbn in Hfail; try discriminate; reflexivity.
Qed.

(** A run that returns ends with an accepted generation, whose text is the
    statement of the final state; the topic of the final state is the topic
    of the run. *)
Lemma Run_returned (topic : string) (latest : option string)
    (t : list Event) (final : State) :
  Run topic latest t (Ret final) ->
  final !! "topic" = Some topic
  /\ exists pre p s d,
       t = pre ++ [Generation p (Ok s); Evaluation (evaluation_prompt s) (Ok d)]
       /\ fb_grade d = "good"
       /\ final !! "pr_statement" = Some s.
Proof.
  intros HR. remember (Ret final) as o eqn:Ho.
  induction HR; try discriminate.
  - injection Ho as ->. split; [assumption|].
    exists [], (generation_request topic latest), s, d. auto.
  - destruct (IHHR Ho) as (Htopic & pre & p & s' & d' & -> & Hgood & Hs).
    split; [assumption|].
    exists (Generation (generation_request topic latest) (Ok s)
              :: Evaluation (evaluation_prompt s) (Ok d) :: pre), p, s', d'.
    auto.
Qed.

Lemma grade_literal_cases (g : string) :
  grade_literal g = true -> g = "good" \/ g = "needs improvement".
Proof.
  unfold grade_literal. intros Hg. apply orb_true_iff in Hg.
  destruct Hg as [Hg|Hg]; apply String.eqb_eq in Hg; auto.
Qed.

(** A reply that passes the schema carries its grade and its feedback. *)
Lemma parse_Ok (r : Result RawFeedback) (d : Feedback) :
  parse r = Ok d ->
  exists raw, r = Ok raw
    /\ raw_grade raw = Some (fb_grade d)
    /\ raw_feedback raw = Some (fb_feedback d)
    /\ grade_literal (fb_grade d) = true.
Proof.
  destruct r as [[[g|] [f|]]|e]; cbn; try discriminate.
  destruct (grade_literal g) eqn:Hg; [|discriminate].
  intros [= <-]. eexists. repeat split. exact Hg.
Qed.

Lemma fallback_not_empty (topic : string) : fallback_statement topic <> EmptyString.
Proof. unfold fallback_statement. cbv [String.append]. discriminate. Qed.

Lemma outcome_after {World A} (t : list Event) (r : Outcome A * World * list Event) :
  outcome (after t r) = outcome r.
Proof. destruct r as [[o w] t']. reflexivity. Qed.

Lemma calls_after {World A} (t : list Event) (r : Outcome A * World * list Event) :
  calls (after t r) = t ++ calls r.
Proof. destruct r as [[o w] t']. reflexivity. Qed.

Section Facts.
Context {World : Type} `{Provider World}.

Lemma generate_node_eq (state : State) (topic : string) (w : World) :
  state !! "topic" = Some topic ->
  generate_pr_statement_node ready state w =
    let p := generation_request topic (get_truthy state "feedback") in
    match chat_completion MODEL p w with
    | (r, w') =>
        (match r with
         | Ok s => Ret {[ "pr_statement" := s ]}
         | Err e => Exc e
         end, w', [Generation p r])
    end.
Proof.
  intros Htopic.
  unfold generate_pr_statement_node, try_except, bind, lift, getitem, llm_invoke.
  cbn [ready _llm model_name]. rewrite Htopic. cbn [of_result].
  destruct (get_truthy state "feedback") as [fb|]; cbn [generation_request];
    destruct (chat_completion MODEL _ w) as [[s|e] w']; reflexivity.
Qed.

Lemma evaluate_node_eq (state : State) (s : string) (w : World) :
  state !! "pr_statement" = Some s ->
  evaluate_pr_statement_node ready state w =
    let q := evaluation_prompt s in
    match structured_completion MODEL q w with
    | (r, w') =>
        (match parse r with
         | Ok d => Ret (evaluation_update d)
         | Err e => Exc e
         end, w', [Evaluation q (parse r)])
    end.
Proof.
  intros Hs.
  unfold evaluate_pr_statement_node, try_except, bind, lift, getitem,
    evaluator_invoke.
  cbn [ready _evaluator with_structured_output bound model_name].
  rewrite Hs. cbn [of_result].
  destruct (structured_completion MODEL _ w) as [r w'].
  fold (parse r). destruct (parse r) as [d|e]; reflexivity.
Qed.

Lemma node_generate :
  assoc "Generate_PR_Statement" (nodes workflow) = Some generate_pr_statement_node.
Proof. reflexivity. Qed.

Lemma node_evaluate :
  assoc "Evaluate_PR_Statement" (nodes workflow) = Some evaluate_pr_statement_node.
Proof. reflexivity. Qed.

Lemma successor_start (state : State) :
  successor workflow START state = Ok "Generate_PR_Statement".
Proof. reflexivity. Qed.

Lemma successor_generate (state : State) :
  successor workflow "Generate_PR_Statement" state = Ok "Evaluate_PR_Statement".
Proof. reflexivity. Qed.

Lemma successor_evaluate (state : State) (grade : string) :
  state !! "grade" = Some grade ->
  successor workflow "Evaluate_PR_Statement" state =
    Ok (if String.eqb grade "good" then END else "Generate_PR_Statement").
Proof.
  intros Hg. unfold successor. cbn [workflow branches add_conditional_edges
    add_edge add_node empty_graph app assoc].
  change (String.eqb "Evaluate_PR_Statement" "Evaluate_PR_Statement") with true.
  cbv iota beta. unfold route_statement, getitem. rewrite Hg.
  destruct (String.eqb grade "good"); reflexivity.
Qed.

(** [route_statement] has no check of its own: any grade but ["good"] goes
    back to the generation node. *)
Lemma route_statement_other_grade (state : State) (grade : string) :
  state !! "grade" = Some grade -> grade <> "good" ->
  route_statement state = Ok "Rejected + Feedback".
Proof.
  intros Hg Hne. unfold route_statement, getitem. rewrite Hg.
  apply String.eqb_neq in Hne. rewrite Hne. reflexivity.
Qed.

Lemma run_end (fuel : nat) (state : State) (w : World) :
  run_from fuel workflow ready END state w = (Ret state, w, []).
Proof. destruct fuel; reflexivity. Qed.

Lemma run_generate (fuel : nat) (state : State) (topic : string) (w : World) :
  state !! "topic" = Some topic ->
  run_from (S fuel) workflow ready "Generate_PR_Statement" state w =
    let p := generation_request topic (get_truthy state "feedback") in
    match chat_completion MODEL p w with
    | (Ok s, w') =>
        after [Generation p (Ok s)]
          (run_from fuel workflow ready "Evaluate_PR_Statement"
             ({[ "pr_statement" := s ]} ∪ state) w')
    | (Err e, w') => (Exc e, w', [Generation p (Err e)])
    end.
Proof.
  intros Htopic. cbn [run_from].
  change (String.eqb "Generate_PR_Statement" END) with false. cbv iota.
  rewrite node_generate. unfold bind at 1.
  rewrite (generate_node_eq _ _ _ Htopic). cbv zeta.
  destruct (chat_completion MODEL _ w) as [[s|e] w']; [|reflexivity].
  unfold bind, lift. rewrite successor_generate. cbn [of_result].
  destruct (run_from fuel _ _ _ _ w') as [[o w2] t2]. reflexivity.
Qed.

Lemma run_evaluate (fuel : nat) (state : State) (s : string) (w : World) :
  state !! "pr_statement" = Some s ->
  run_from (S fuel) workflow ready "Evaluate_PR_Statement" state w =
    let q := evaluation_prompt s in
    match structured_completion MODEL q w with
    | (r, w') =>
        match parse r with
        | Ok d =>
            let state' := evaluation_update d ∪ state in
            after [Evaluation q (Ok d)]
              (if String.eqb (fb_grade d) "good" then (Ret state', w', [])
               else run_from fuel workflow ready "Generate_PR_Statement" state' w')
        | Err e => (Exc e, w', [Evaluation q (Err e)])
        end
    end.
Proof.
  intros Hs. cbn [run_from].
  change (String.eqb "Evaluate_PR_Statement" END) with false. cbv iota.
  rewrite node_evaluate. unfold bind at 1.
  rewrite (evaluate_node_eq _ _ _ Hs). cbv zeta.
  destruct (structured_completion MODEL _ w) as [r w'].
  destruct (parse r) as [d|e]; [|reflexivity].
  unfold bind, lift.
  rewrite (successor_evaluate _ (fb_grade d)).
  2:{ unfold evaluation_update. rewrite lookup_union, lookup_insert_eq.
      destruct (state !! "grade"); reflexivity. }
  cbn [of_result]. destruct (String.eqb (fb_grade d) "good").
  - rewrite run_end. reflexivity.
  - destruct (run_from fuel _ _ _ _ w') as [[o w2] t2]. reflexivity.
Qed.

Lemma ainvoke_eq (fuel : nat) (input : State) (w : World) :
  ainvoke fuel workflow ready input w =
    run_from fuel workflow ready "Generate_PR_Statement" input w.
Proof.
  unfold ainvoke, bind, lift. rewrite successor_start. cbn [of_result].
  destruct (run_from fuel _ _ _ _ w) as [[o w'] t]. reflexivity.
Qed.

(** *** The state between the nodes *)

Lemma generated_topic (state : State) (s : string) :
  ({[ "pr_statement" := s ]} ∪ state) !! "topic" = state !! "topic".
Proof.
  rewrite lookup_union, lookup_singleton_ne by done.
  destruct (state !! "topic"); reflexivity.
Qed.

Lemma generated_feedback (state : State) (s : string) :
  ({[ "pr_statement" := s ]} ∪ state) !! "feedback" = state !! "feedback".
Proof.
  rewrite lookup_union, lookup_singleton_ne by done.
  destruct (state !! "feedback"); reflexivity.
Qed.

Lemma generated_statement (state : State) (s : string) :
  ({[ "pr_statement" := s ]} ∪ state) !! "pr_statement" = Some s.
Proof.
  rewrite lookup_union, lookup_singleton_eq.
  destruct (state !! "pr_statement"); reflexivity.
Qed.

Lemma evaluated_topic (state : State) (d : Feedback) :
  (evaluation_update d ∪ state) !! "topic" = state !! "topic".
Proof.
  unfold evaluation_update.
  rewrite lookup_union, lookup_insert_ne, lookup_singleton_ne by done.
  destruct (state !! "topic"); reflexivity.
Qed.

Lemma evaluated_statement (state : State) (d : Feedback) :
  (evaluation_update d ∪ state) !! "pr_statement" = state !! "pr_statement".
Proof.
  unfold evaluation_update.
  rewrite lookup_union, lookup_insert_ne, lookup_singleton_ne by done.
  destruct (state !! "pr_statement"); reflexivity.
Qed.

Lemma evaluated_feedback (state : State) (d : Feedback) :
  (evaluation_update d ∪ state) !! "feedback" = Some (fb_feedback d).
Proof.
  unfold evaluation_update.
  rewrite lookup_union, lookup_insert_ne, lookup_singleton_eq by done.
  destruct (state !! "feedback"); reflexivity.
Qed.

Lemma get_truthy_lookup (state : State) (key : string) :
  get_truthy state key =
    match state !! key with Some v => truthy v | None => None end.
Proof.
  unfold get_truthy. destruct (state !! key) as [[|c v]|]; reflexivity.
Qed.

Lemma evaluated_get_feedback (state : State) (s : string) (d : Feedback) :
  get_truthy (evaluation_update d ∪ ({[ "pr_statement" := s ]} ∪ state)) "feedback"
  = truthy (fb_feedback d).
Proof. rewrite get_truthy_lookup, evaluated_feedback. reflexivity. Qed.

Lemma generated_get_feedback (state : State) (s : string) :
  get_truthy ({[ "pr_statement" := s ]} ∪ state) "feedback"
  = get_truthy state "feedback".
Proof. rewrite !get_truthy_lookup, generated_feedback. reflexivity. Qed.

(** *** One round of the loop *)

Lemma run_round (fuel : nat) (state : State) (topic : string) (w : World) :
  state !! "topic" = Some topic ->
  run_from (S (S fuel)) workflow ready "Generate_PR_Statement" state w =
    let p := generation_request topic (get_truthy state "feedback") in
    match chat_completion MODEL p w with
    | (Err e, w1) => (Exc e, w1, [Generation p (Err e)])
    | (Ok s, w1) =>
        let q := evaluation_prompt s in
        match structured_completion MODEL q w1 with
        | (r, w2) =>
            match parse r with
            | Err e => (Exc e, w2, [Generation p (Ok s); Evaluation q (Err e)])
            | Ok d =>
                let state' :=
                  evaluation_update d ∪ ({[ "pr_statement" := s ]} ∪ state) in
                after [Generation p (Ok s); Evaluation q (Ok d)]
                  (if String.eqb (fb_grade d) "good" then (Ret state', w2, [])
                   else run_from fuel workflow ready "Generate_PR_Statement"
                          state' w2)
            end
        end
    end.
Proof.
  intros Htopic. rewrite (run_generate _ _ _ _ Htopic). cbv zeta.
  destruct (chat_completion MODEL _ w) as [[s|e] w1]; [|reflexivity].
  rewrite (run_evaluate _ _ s) by apply generated_statement. cbv zeta.
  destruct (structured_completion MODEL _ w1) as [r w2].
  destruct (parse r) as [d|e]; [|reflexivity].
  destruct (String.eqb (fb_grade d) "good"); [reflexivity|].
  destruct (run_from fuel _ _ _ _ w2) as [[o w3] t]. reflexivity.
Qed.

Lemma run_one (state : State) (topic : string) (w : World) :
  state !! "topic" = Some topic ->
  run_from 1 workflow ready "Generate_PR_Statement" state w =
    let p := generation_request topic (get_truthy state "feedback") in
    match chat_completion MODEL p w with
    | (Err e, w1) => (Exc e, w1, [Generation p (Err e)])
    | (Ok s, w1) => (Exc recursion_error, w1, [Generation p (Ok s)])
    end.
Proof.
  intros Htopic. rewrite (run_generate _ _ _ _ Htopic). cbv zeta.
  destruct (chat_completion MODEL _ w) as [[s|e] w1]; reflexivity.
Qed.

(** Every run of the workflow has the shape [Run]. *)
Lemma run_from_Run (topic : string) (fuel : nat) :
  forall (state : State) (w : World),
    state !! "topic" = Some topic ->
    Run topic (get_truthy state "feedback")
      (calls (run_from fuel workflow ready "Generate_PR_Statement" state w))
      (outcome (run_from fuel workflow ready "Generate_PR_Statement" state w)).
Proof.
  induction fuel as [fuel IH] using lt_wf_ind. intros state w Htopic.
  destruct fuel as [|[|fuel]].
  - apply Run_no_fuel_generate.
  - rewrite (run_one _ _ _ Htopic). cbv zeta.
    destruct (chat_completion MODEL _ w) as [[s|e] w1]; constructor.
  - rewrite (run_round _ _ _ _ Htopic). cbv zeta.
    destruct (chat_completion MODEL _ w) as [[s|e] w1]; [|constructor].
    destruct (structured_completion MODEL _ w1) as [r w2].
    destruct (parse r) as [d|e]; [|constructor].
    destruct (String.eqb (fb_grade d) "good") eqn:Hgood.
    + apply String.eqb_eq in Hgood. cbn.
      apply Run_accepted; [assumption| |].
      * rewrite evaluated_statement. apply generated_statement.
      * rewrite evaluated_topic, generated_topic. assumption.
    + apply String.eqb_neq in Hgood.
      assert (Htopic' : (evaluation_update d ∪ ({[ "pr_statement" := s ]} ∪ state))
                          !! "topic" = Some topic)
        by (rewrite evaluated_topic, generated_topic; assumption).
      pose proof (IH fuel ltac:(lia) _ w2 Htopic') as HR.
      rewrite evaluated_get_feedback in HR.
      destruct (run_from fuel _ _ _ _ w2) as [[o w3] t]. cbn in *.
      apply Run_rejected; assumption.
Qed.

(** *** The entry point over the loop *)

Lemma try_ready (fuel : nat) (topic : string) (w : World) :
  generate_pr_statement_try fuel ready_service topic w =
    match run_from fuel workflow ready "Generate_PR_Statement"
            {[ "topic" := topic ]} w with
    | (Ret final, w', t) => (of_result (getitem final "pr_statement"), w', t)
    | (Exc e, w', t) => (Exc e, w', t)
    | (Diverge, w', t) => (Diverge, w', t)
    end.
Proof.
  unfold generate_pr_statement_try. cbn [ready_service _workflow_graph handles].
  unfold bind at 1. rewrite ainvoke_eq.
  destruct (run_from fuel _ _ _ _ w) as [[[final|e|] w'] t]; try reflexivity.
  unfold lift. rewrite app_nil_r. reflexivity.
Qed.

Lemma fallback_on_exception {A} (body : M World A) (text : A) (w : World) :
  try_except body (fun _ => ret text) w =
    match body w with
    | (Exc _, w', t) => (Ret text, w', t)
    | r => r
    end.
Proof.
  unfold try_except, ret.
  destruct (body w) as [[[a|e|] w'] t]; try reflexivity.
  rewrite app_nil_r. reflexivity.
Qed.

Lemma generate_pr_statement_ready (fuel : nat) (topic : string) (w : World) :
  generate_pr_statement fuel ready_service topic w =
    match run_from fuel workflow ready "Generate_PR_Statement"
            {[ "topic" := topic ]} w with
    | (Ret final, w', t) =>
        (match final !! "pr_statement" with
         | Some text => Ret text
         | None => Ret (fallback_statement topic)
         end, w', t)
    | (Exc e, w', t) => (Ret (fallback_statement topic), w', t)
    | (Diverge, w', t) => (Diverge, w', t)
    end.
Proof.
  unfold generate_pr_statement. rewrite fallback_on_exception, try_ready.
  destruct (run_from fuel _ _ _ _ w) as [[[final|e|] w'] t]; try reflexivity.
  unfold getitem. destruct (final !! "pr_statement"); reflexivity.
Qed.

Lemma initial_topic (topic : string) :
  ({[ "topic" := topic ]} : State) !! "topic" = Some topic.
Proof. apply lookup_singleton_eq. Qed.

Lemma initial_feedback (topic : string) :
  get_truthy ({[ "topic" := topic ]} : State) "feedback" = None.
Proof. rewrite get_truthy_lookup, lookup_singleton_ne by done. reflexivity. Qed.

(** The calls and the outcome of a whole invocation have the shape [Run],
    starting without feedback. *)
Lemma ainvoke_Run (fuel : nat) (topic : string) (w : World) :
  Run topic None
    (calls (ainvoke fuel workflow ready {[ "topic" := topic ]} w))
    (outcome (ainvoke fuel workflow ready {[ "topic" := topic ]} w)).
Proof.
  rewrite ainvoke_eq, <- (initial_feedback topic).
  apply run_from_Run, initial_topic.
Qed.
End Facts.

(** ** The entry point and its fallback *)

Section EntryPoint.
Context {World : Type} `{Provider World}.

(** C10: [generate_pr_statement] never lets an exception out.  Whatever
    the service it is given (initialised or not) and however the [try]
    block ends, it ends the same way with the same calls, except that an
    exception becomes the fallback statement; without a workflow the
    fallback comes at once; and the fallback statement is a fixed text
    around the topic. *)
Theorem generate_pr_statement_never_raises
    (fuel : nat) (s : Service) (topic : string) (w : World) :
  outcome (generate_pr_statement fuel s topic w) =
    match outcome (generate_pr_statement_try fuel s topic w) with
    | Ret text => Ret text
    | Exc _ => Ret (fallback_statement topic)
    | Diverge => Diverge
    end
  /\ world_of (generate_pr_statement fuel s topic w) =
       world_of (generate_pr_statement_try fuel s topic w)
  /\ calls (generate_pr_statement fuel s topic w) =
       calls (generate_pr_statement_try fuel s topic w)
  /\ (forall e, outcome (generate_pr_statement fuel s topic w) <> Exc e)
  /\ (_workflow_graph s = None ->
      generate_pr_statement fuel s topic w = (Ret (fallback_statement topic), w, []))
  /\ exists before behind,
       fallback_statement topic = before +:+ topic +:+ behind.
Proof.
  unfold generate_pr_statement. rewrite fallback_on_exception.
  repeat split.
  - destruct (generate_pr_statement_try fuel s topic w) as [[[a|e|] w'] t];
      reflexivity.
  - destruct (generate_pr_statement_try fuel s topic w) as [[[a|e|] w'] t];
      reflexivity.
  - destruct (generate_pr_statement_try fuel s topic w) as [[[a|e|] w'] t];
      reflexivity.
  - intros e.
    destruct (generate_pr_statement_try fuel s topic w) as [[[a|e'|] w'] t];
      discriminate.
  - intros Hnone. unfold generate_pr_statement_try. rewrite Hnone. reflexivity.
  - eexists _, _. reflexivity.
Qed.

(** C6: without a workflow, and also with a workflow but without the
    model handles, [generate_pr_statement] returns the fallback statement
    and calls nobody: the [RuntimeError] that the check raises inside the
    [try] block does not reach the caller. *)
Theorem uninitialized_returns_fallback
    (fuel : nat) (topic : string) (w : World) :
  generate_pr_statement_try fuel uninitialized topic w
    = (Exc (RuntimeError "Workflow not initialized. Call initialize_pr_generator() first."),
       w, [])
  /\ generate_pr_statement fuel uninitialized topic w
    = (Ret (fallback_statement topic), w, [])
  /\ generate_pr_statement (S fuel)
       {| handles := {| _llm := None; _evaluator := None |};
          _workflow_graph := Some workflow |} topic w
     = (Ret (fallback_statement topic), w, []).
Proof. repeat split. Qed.
End EntryPoint.

(** ** Start-up *)

Section Startup.
Context {World : Type} `{Provider World}.

(** C7: with the key missing from the environment, or empty,
    [initialize_llm] raises a [ValueError] (a configuration error) and
    leaves the handles as they were; the start-up part of [lifespan]
    raises it again without setting the initialised flag, and the server
    answers no request and makes no provider call. *)
Theorem missing_credential_stops_startup
    (env : gmap string string) (s : Service) (fuel : nat)
    (topics : list string) (w : World)
    (Hkey : env !! "GROQ_API_KEY" = None \/ env !! "GROQ_API_KEY" = Some EmptyString) :
  let e := ValueError "GROQ_API_KEY not found in environment variables" in
  ConfigurationError e = true
  /\ initialize_llm env s = (Err e, env, s)
  /\ initialize_pr_generator env s = (Err e, env, s)
  /\ lifespan_startup (fresh_app env) = (Err e, fresh_app env)
  /\ serve fuel (fresh_app env) topics w = (Exc e, w, []).
Proof.
  assert (Hget : get_truthy env "GROQ_API_KEY" = None)
    by (unfold get_truthy; destruct Hkey as [-> | ->]; reflexivity).
  assert (Hllm : forall s' : @Service World, initialize_llm env s' =
            (Err (ValueError "GROQ_API_KEY not found in environment variables"),
             env, s'))
    by (intros s'; unfold initialize_llm; rewrite Hget; reflexivity).
  assert (Hinit : forall s' : @Service World, initialize_pr_generator env s' =
            (Err (ValueError "GROQ_API_KEY not found in environment variables"),
             env, s'))
    by (intros s'; unfold initialize_pr_generator; rewrite Hllm; reflexivity).
  assert (Hlife : lifespan_startup (fresh_app env) =
            (Err (ValueError "GROQ_API_KEY not found in environment variables"),
             fresh_app env))
    by (unfold lifespan_startup; cbn [fresh_app environ service];
        rewrite Hinit; reflexivity).
  cbv zeta. repeat split; auto.
  unfold serve. rewrite Hlife. reflexivity.
Qed.
End Startup.

(** ** Runs of the loop against given replies *)

Section Scenarios.
Context {World : Type} `{Provider World}.

(** C3: when the first evaluation grades the first generation ["good"],
    [generate_pr_statement] makes one generation call and one evaluation
    call and returns the text of that generation as it is. *)
Theorem accepted_at_first_evaluation
    (fuel : nat) (topic s f : string) (w w1 w2 : World)
    (Hfuel : 2 <= fuel)
    (Hgen : chat_completion MODEL (generation_prompt topic) w = (Ok s, w1))
    (Heval : structured_completion MODEL (evaluation_prompt s) w1
             = (raw "good" f, w2)) :
  generate_pr_statement fuel ready_service topic w =
    (Ret s, w2,
     [Generation (generation_prompt topic) (Ok s);
      Evaluation (evaluation_prompt s) (Ok (mkFeedback "good" f))])
  /\ generation_calls (calls (generate_pr_statement fuel ready_service topic w)) = 1
  /\ evaluation_calls (calls (generate_pr_statement fuel ready_service topic w)) = 1.
Proof.
  assert (Hrun : generate_pr_statement fuel ready_service topic w =
    (Ret s, w2,
     [Generation (generation_prompt topic) (Ok s);
      Evaluation (evaluation_prompt s) (Ok (mkFeedback "good" f))])).
  { destruct fuel as [|[|fuel]]; try lia.
    rewrite generate_pr_statement_ready.
    rewrite (run_round _ _ topic) by apply initial_topic.
    rewrite initial_feedback. cbv zeta. cbn [generation_request].
    rewrite Hgen, Heval. cbn.
    rewrite evaluated_statement, generated_statement. reflexivity. }
  rewrite Hrun. repeat split.
Qed.

(** C4: when the first evaluation answers ["needs improvement"] with some
    feedback and the second one ["good"], [generate_pr_statement] makes two
    generation calls and two evaluation calls in turn, the prompt of the
    second generation ends with the feedback of the first evaluation, and
    the second text is returned. *)
Theorem improved_once_then_accepted
    (fuel : nat) (topic s1 fb1 s2 fb2 : string) (w w1 w2 w3 w4 : World)
    (Hfuel : 4 <= fuel)
    (Hgen1 : chat_completion MODEL (generation_prompt topic) w = (Ok s1, w1))
    (Heval1 : structured_completion MODEL (evaluation_prompt s1) w1
              = (raw "needs improvement" fb1, w2))
    (Hgen2 : chat_completion MODEL (generation_request topic (truthy fb1)) w2
             = (Ok s2, w3))
    (Heval2 : structured_completion MODEL (evaluation_prompt s2) w3
              = (raw "good" fb2, w4)) :
  generate_pr_statement fuel ready_service topic w =
    (Ret s2, w4,
     [Generation (generation_prompt topic) (Ok s1);
      Evaluation (evaluation_prompt s1) (Ok (mkFeedback "needs improvement" fb1));
      Generation (generation_request topic (truthy fb1)) (Ok s2);
      Evaluation (evaluation_prompt s2) (Ok (mkFeedback "good" fb2))])
  /\ generation_calls (calls (generate_pr_statement fuel ready_service topic w)) = 2
  /\ evaluation_calls (calls (generate_pr_statement fuel ready_service topic w)) = 2
  /\ exists before, generation_request topic (truthy fb1) = before +:+ fb1.
Proof.
  assert (Hrun : generate_pr_statement fuel ready_service topic w =
    (Ret s2, w4,
     [Generation (generation_prompt topic) (Ok s1);
      Evaluation (evaluation_prompt s1) (Ok (mkFeedback "needs improvement" fb1));
      Generation (generation_request topic (truthy fb1)) (Ok s2);
      Evaluation (evaluation_prompt s2) (Ok (mkFeedback "good" fb2))])).
  { destruct fuel as [|[|[|[|fuel]]]]; try lia.
    rewrite generate_pr_statement_ready.
    rewrite (run_round _ _ topic) by apply initial_topic.
    rewrite initial_feedback. cbv zeta. cbn [generation_request].
    rewrite Hgen1, Heval1. cbn [raw parse Feedback_validate raw_grade raw_feedback].
    change (grade_literal "needs improvement") with true. cbv iota.
    cbn [fb_grade].
    change (String.eqb "needs improvement" "good") with false. cbv iota.
    rewrite (run_round _ _ topic)
      by (rewrite evaluated_topic, generated_topic; apply initial_topic).
    rewrite evaluated_get_feedback. cbv zeta. cbn [fb_feedback].
    rewrite Hgen2, Heval2. cbn.
    rewrite evaluated_statement, generated_statement. reflexivity. }
  rewrite Hrun. repeat split. apply request_ends_with_feedback.
Qed.

(** C5 (as the code has it): when the provider's reply to an evaluation
    carries a grade that is neither ["good"] nor ["needs improvement"], the
    evaluation raises a validation error (a provider error) and the run of
    the graph ends there, in whatever state the evaluation node was
    entered: that call is the last one.  A whole invocation whose first
    evaluation gets such a reply raises after one generation and one
    evaluation, and [generate_pr_statement] answers with the fallback
    statement instead of raising. *)
Theorem invalid_grade_aborts
    (fuel : nat) (state : State) (s g : string) (f : option string)
    (w w' : World)
    (Hs : state !! "pr_statement" = Some s)
    (Hreply : structured_completion MODEL (evaluation_prompt s) w
              = (Ok {| raw_grade := Some g; raw_feedback := f |}, w'))
    (Hg : grade_literal g = false) :
  exists e,
    ProviderError e = true
    /\ evaluator_invoke (with_structured_output {| model_name := MODEL |})
         (evaluation_prompt s) w
       = (Exc e, w', [Evaluation (evaluation_prompt s) (Err e)])
    /\ run_from (S fuel) workflow ready "Evaluate_PR_Statement" state w
       = (Exc e, w', [Evaluation (evaluation_prompt s) (Err e)])
    /\ forall (topic : string) (w0 : World),
         chat_completion MODEL (generation_prompt topic) w0 = (Ok s, w) ->
         ainvoke (S (S fuel)) workflow ready {[ "topic" := topic ]} w0
         = (Exc e, w',
            [Generation (generation_prompt topic) (Ok s);
             Evaluation (evaluation_prompt s) (Err e)])
         /\ generate_pr_statement (S (S fuel)) ready_service topic w0
            = (Ret (fallback_statement topic), w',
               [Generation (generation_prompt topic) (Ok s);
                Evaluation (evaluation_prompt s) (Err e)]).
Proof.
  assert (Hparse : exists e, ProviderError e = true /\
            parse (Ok {| raw_grade := Some g; raw_feedback := f |}) = Err e).
  { cbn [parse Feedback_validate raw_grade raw_feedback].
    destruct f as [f|]; [rewrite Hg|]; eexists; (split; [|reflexivity]); reflexivity. }
  destruct Hparse as (e & He & Hparse). exists e.
  split; [exact He|]. split; [|split].
  - unfold evaluator_invoke. cbn [with_structured_output bound model_name].
    rewrite Hreply. fold (parse (Ok {| raw_grade := Some g; raw_feedback := f |})).
    rewrite Hparse. reflexivity.
  - rewrite (run_evaluate _ _ s) by exact Hs. cbv zeta.
    rewrite Hreply, Hparse. reflexivity.
  - intros topic w0 Hgen. split.
    + rewrite ainvoke_eq.
      rewrite (run_round _ _ topic) by apply initial_topic.
      rewrite initial_feedback. cbv zeta. cbn [generation_request].
      rewrite Hgen, Hreply, Hparse. reflexivity.
    + rewrite generate_pr_statement_ready.
      rewrite (run_round _ _ topic) by apply initial_topic.
      rewrite initial_feedback. cbv zeta. cbn [generation_request].
      rewrite Hgen, Hreply, Hparse. reflexivity.
Qed.
End Scenarios.

(** ** Failures, feedback and the topic along the loop *)

Section Loop.
Context {World : Type} `{Provider World}.

(** What the generation node returns, with any handles. *)
Lemma generate_node_update (h : Handles) (state upd : State) (w : World) :
  outcome (generate_pr_statement_node h state w) = Ret upd ->
  exists content, upd = {[ "pr_statement" := content ]}.
Proof.
  unfold generate_pr_statement_node, try_except, bind, lift, getitem,
    llm_invoke, raise, ret, outcome.
  destruct (_llm h) as [llm|]; [|discriminate].
  destruct (state !! "topic") as [topic|]; [|discriminate]. cbn [of_result].
  destruct (get_truthy state "feedback");
    destruct (chat_completion _ _ w) as [[content|e] w']; cbn;
    intros [= <-]; eauto.
Qed.

(** What the evaluation node returns, with any handles. *)
Lemma evaluate_node_update (h : Handles) (state upd : State) (w : World) :
  outcome (evaluate_pr_statement_node h state w) = Ret upd ->
  exists q d,
    calls (evaluate_pr_statement_node h state w) = [Evaluation q (Ok d)]
    /\ upd = evaluation_update d.
Proof.
  unfold evaluate_pr_statement_node, try_except, bind, lift, getitem,
    evaluator_invoke, raise, ret, outcome, calls.
  destruct (_evaluator h) as [ev|]; [|discriminate].
  destruct (state !! "pr_statement") as [text|]; [|discriminate].
  cbn [of_result].
  destruct (structured_completion _ _ w) as [r w'].
  fold (parse r). destruct (parse r) as [d|e]; cbn; intros [= <-]; eauto.
Qed.

(** C1 (as the code has it): a provider call that fails during a run of the
    workflow is the last call of that run, and the invocation of the graph
    raises its exception; [generate_pr_statement] then answers with the
    fallback statement instead of raising.  When the failed call is the
    first call, no evaluation has been made; and when the provider fails the
    first generation, the invocation consists of that one call. *)
Theorem provider_error_aborts_loop
    (fuel : nat) (topic : string) (w : World)
    (pre post : list Event) (ev : Event) (e : Exception)
    (Hcalls : calls (ainvoke fuel workflow ready {[ "topic" := topic ]} w)
              = pre ++ ev :: post)
    (Hfail : failed ev = Some e) :
  post = []
  /\ outcome (ainvoke fuel workflow ready {[ "topic" := topic ]} w) = Exc e
  /\ generate_pr_statement fuel ready_service topic w
     = (Ret (fallback_statement topic),
        world_of (ainvoke fuel workflow ready {[ "topic" := topic ]} w),
        calls (ainvoke fuel workflow ready {[ "topic" := topic ]} w))
  /\ (pre = [] ->
      evaluation_calls (calls (ainvoke fuel workflow ready {[ "topic" := topic ]} w)) = 0)
  /\ (forall e' w',
        chat_completion MODEL (generation_prompt topic) w = (Err e', w') ->
        ainvoke fuel workflow ready {[ "topic" := topic ]} w
        = (Exc e', w', [Generation (generation_prompt topic) (Err e')])).
Proof.
  pose proof (ainvoke_Run fuel topic w) as HR.
  destruct (Run_failed_last _ _ _ _ HR _ _ _ _ Hcalls Hfail) as [Hpost Hexc].
  repeat split; try assumption.
  - rewrite generate_pr_statement_ready. rewrite ainvoke_eq in Hexc |- *.
    destruct (run_from fuel _ _ _ _ w) as [[o w'] t]. cbn in Hexc. subst o.
    reflexivity.
  - intros ->. rewrite Hcalls in HR |- *. cbn [app] in *.
    eapply Run_failed_first; eassumption.
  - intros e' w' Hgen. rewrite ainvoke_eq.
    destruct fuel as [|fuel].
    + rewrite ainvoke_eq in Hcalls. destruct pre; discriminate.
    + rewrite (run_generate _ _ topic) by apply initial_topic.
      rewrite initial_feedback. cbv zeta. cbn [generation_request].
      rewrite Hgen. reflexivity.
Qed.

(** C8: in every run, the prompt of each generation call is the prompt for
    the topic and the feedback of the evaluation just before it (none for
    the first): no earlier feedback takes part.  An evaluation writes its
    feedback over the one in the state, and the prompt of a generation is
    made of the topic and of the feedback in the state alone. *)
Theorem feedback_is_not_accumulated (fuel : nat) (topic : string) (w : World) :
  feedback_chain topic None
    (calls (generate_pr_statement fuel ready_service topic w)) = true
  /\ (forall (h : Handles) (state upd : State) (w0 : World),
        outcome (evaluate_pr_statement_node h state w0) = Ret upd ->
        exists q d,
          calls (evaluate_pr_statement_node h state w0) = [Evaluation q (Ok d)]
          /\ (upd ∪ state) !! "feedback" = Some (fb_feedback d))
  /\ (forall (state : State) (topic' : string) (w0 : World),
        state !! "topic" = Some topic' ->
        exists reply,
          calls (generate_pr_statement_node ready state w0)
          = [Generation (generation_request topic' (get_truthy state "feedback"))
               reply]).
Proof.
  repeat split.
  - pose proof (ainvoke_Run fuel topic w) as HR. apply Run_chain in HR.
    rewrite ainvoke_eq in HR. rewrite generate_pr_statement_ready.
    destruct (run_from fuel _ _ _ _ w) as [[[final|e|] w'] t]; exact HR.
  - intros h state upd w0 Hupd.
    destruct (evaluate_node_update _ _ _ _ Hupd) as (q & d & Hc & ->).
    exists q, d. split; [exact Hc | apply evaluated_feedback].
  - intros state topic' w0 Htopic. rewrite (generate_node_eq _ _ _ Htopic).
    cbv zeta. destruct (chat_completion MODEL _ w0) as [r w']. eauto.
Qed.

(** C9: the state that an invocation returns has the topic it was started
    with, however many rounds were run; and neither node writes the key: the
    update of a node has no topic, so the state keeps the one it had. *)
Theorem topic_is_preserved
    (fuel : nat) (topic : string) (w : World) (final : State)
    (Hfinal : outcome (ainvoke fuel workflow ready {[ "topic" := topic ]} w)
              = Ret final) :
  final !! "topic" = Some topic
  /\ (forall (h : Handles) (state upd : State) (w0 : World),
        outcome (generate_pr_statement_node h state w0) = Ret upd ->
        upd !! "topic" = None /\ (upd ∪ state) !! "topic" = state !! "topic")
  /\ (forall (h : Handles) (state upd : State) (w0 : World),
        outcome (evaluate_pr_statement_node h state w0) = Ret upd ->
        upd !! "topic" = None /\ (upd ∪ state) !! "topic" = state !! "topic").
Proof.
  split; [|split].
  - pose proof (ainvoke_Run fuel topic w) as HR. rewrite Hfinal in HR.
    apply Run_returned in HR. apply HR.
  - intros h state upd w0 Hupd.
    destruct (generate_node_update _ _ _ _ Hupd) as [content ->].
    split; [|apply generated_topic].
    apply lookup_singleton_ne. done.
  - intros h state upd w0 Hupd.
    destruct (evaluate_node_update _ _ _ _ Hupd) as (q & d & _ & ->).
    split; [|apply evaluated_topic].
    unfold evaluation_update.
    rewrite lookup_insert_ne, lookup_singleton_ne by done. reflexivity.
Qed.
End Loop.

(** ** Termination *)

Section Termination.
Context {World : Type} `{Provider World}.

(** A run of the graph always comes to an end: it returns or it raises. *)
Lemma run_ends (topic : string) (fuel : nat) :
  forall (state : State) (w : World),
    state !! "topic" = Some topic ->
    outcome (run_from fuel workflow ready "Generate_PR_Statement" state w)
    <> Diverge.
Proof.
  induction fuel as [fuel IH] using lt_wf_ind. intros state w Htopic.
  destruct fuel as [|[|fuel]].
  - discriminate.
  - rewrite (run_one _ _ _ Htopic). cbv zeta.
    destruct (chat_completion MODEL _ w) as [[s|e] w1]; discriminate.
  - rewrite (run_round _ _ _ _ Htopic). cbv zeta.
    destruct (chat_completion MODEL _ w) as [[s|e] w1]; [|discriminate].
    destruct (structured_completion MODEL _ w1) as [r w2].
    destruct (parse r) as [d|e]; [|discriminate].
    rewrite outcome_after.
    destruct (String.eqb (fb_grade d) "good"); [discriminate|].
    apply IH; [lia|]. rewrite evaluated_topic, generated_topic. exact Htopic.
Qed.

(** C2 (as the code has it): whatever the topic, the provider and the step
    limit of the runner, [generate_pr_statement] comes to an end and
    returns a text, raising nothing: either the fallback statement, which
    is not empty, after the invocation of the graph raised (a failed call,
    or the step limit when the evaluator keeps rejecting), or the text of
    the last generation call as the provider gave it, that call being
    followed by an evaluation graded "good". *)
Theorem generate_pr_statement_terminates
    (fuel : nat) (topic : string) (w : World) :
  exists text,
    outcome (generate_pr_statement fuel ready_service topic w) = Ret text
    /\ ((text = fallback_statement topic
         /\ text <> EmptyString
         /\ exists e,
              outcome (ainvoke fuel workflow ready {[ "topic" := topic ]} w)
              = Exc e)
        \/ exists pre p q d,
             calls (generate_pr_statement fuel ready_service topic w)
             = pre ++ [Generation p (Ok text); Evaluation q (Ok d)]
             /\ fb_grade d = "good").
Proof.
  pose proof (run_ends topic fuel {[ "topic" := topic ]} w (initial_topic topic))
    as Hterm.
  pose proof (ainvoke_Run fuel topic w) as HR.
  rewrite generate_pr_statement_ready. rewrite ainvoke_eq in HR |- *.
  destruct (run_from fuel _ _ _ _ w) as [[[final|e|] w'] t]; cbn in *.
  - apply Run_returned in HR.
    destruct HR as (_ & pre & p & s & d & -> & Hgood & Hs).
    rewrite Hs. exists s. split; [reflexivity|]. right.
    exists pre, p, (evaluation_prompt s), d. auto.
  - exists (fallback_statement topic). split; [reflexivity|]. left.
    split; [reflexivity|]. split; [apply fallback_not_empty | eauto].
  - contradiction.
Qed.
End Termination.


(** * The scenarios *)

Lemma provider_error_aborts_loop_witness :
  generate_pr_statement 4 ready_service "X" provider_down
  = (Ret (fallback_statement "X"),
     world_of (ainvoke 4 workflow ready {[ "topic" := "X" ]} provider_down),
     calls (ainvoke 4 workflow ready {[ "topic" := "X" ]} provider_down))
  /\ outcome (ainvoke 4 workflow ready {[ "topic" := "X" ]} provider_down)
     = Exc (APIError "connection refused").
Proof.
  pose proof (provider_error_aborts_loop 4 "X" provider_down [] []
                (Generation (generation_prompt "X")
                   (Err (APIError "connection refused")))
                (APIError "connection refused") eq_refl eq_refl) as Hw.
  split; apply Hw.
Defined.

(** C1, as stated, fails: the provider refuses the first generation call,
    and [generate_pr_statement] returns the fallback statement; nothing is
    raised to the caller. *)
Lemma provider_error_is_not_propagated :
  chat_completion MODEL (generation_prompt "X") provider_down
  = (Err (APIError "connection refused"),
     {| gen_replies := []; eval_replies := [] |})
  /\ outcome (generate_pr_statement 4 ready_service "X" provider_down)
     = Ret (fallback_statement "X")
  /\ outcome (generate_pr_statement 4 ready_service "X" provider_down)
     <> Exc (APIError "connection refused").
Proof. repeat split. discriminate. Qed.

Lemma generate_pr_statement_terminates_witness :
  exists text,
    outcome (generate_pr_statement DEFAULT_RECURSION_LIMIT ready_service "X"
               (rejecting 20)) = Ret text
    /\ text = fallback_statement "X".
Proof.
  destruct (@generate_pr_statement_terminates Script scripted
              DEFAULT_RECURSION_LIMIT "X" (rejecting 20))
    as (text & Hout & _).
  exists text. split; [exact Hout|].
  revert Hout. vm_compute. intros [= <-]. reflexivity.
Defined.

(** C2, as stated, fails: for the valid topic ["X"], at the step limit of
    the program, a generator that answers with an empty text and an
    evaluator that accepts it make [generate_pr_statement] return the empty
    string, and no error is raised. *)
Lemma empty_statement_is_returned :
  valid_topic "X" = true
  /\ generate_pr_statement DEFAULT_RECURSION_LIMIT ready_service "X" empty_reply
     = (Ret EmptyString, {| gen_replies := []; eval_replies := [] |},
        [Generation (generation_prompt "X") (Ok EmptyString);
         Evaluation (evaluation_prompt EmptyString)
           (Ok (mkFeedback "good" EmptyString))]).
Proof. split; [reflexivity | vm_compute; reflexivity]. Qed.

Lemma accepted_at_first_evaluation_witness :
  generate_pr_statement 2 ready_service "AI-powered chatbot launch" first_pass
  = (Ret "Statement A", {| gen_replies := []; eval_replies := [] |},
     [Generation (generation_prompt "AI-powered chatbot launch") (Ok "Statement A");
      Evaluation (evaluation_prompt "Statement A")
        (Ok (mkFeedback "good" EmptyString))])
  /\ generation_calls
       (calls (generate_pr_statement 2 ready_service "AI-powered chatbot launch"
                 first_pass)) = 1
  /\ evaluation_calls
       (calls (generate_pr_statement 2 ready_service "AI-powered chatbot launch"
                 first_pass)) = 1.
Proof.
  apply (accepted_at_first_evaluation 2 "AI-powered chatbot launch"
           "Statement A" EmptyString first_pass
           {| gen_replies := []; eval_replies := [raw "good" EmptyString] |}
           {| gen_replies := []; eval_replies := [] |});
    [lia | reflexivity | reflexivity].
Defined.

Lemma improved_once_then_accepted_witness :
  outcome (generate_pr_statement 4 ready_service "X" second_pass) = Ret "Final"
  /\ generation_calls (calls (generate_pr_statement 4 ready_service "X" second_pass)) = 2
  /\ evaluation_calls (calls (generate_pr_statement 4 ready_service "X" second_pass)) = 2
  /\ exists before,
       generation_request "X" (truthy "add benefits") = before +:+ "add benefits".
Proof.
  pose proof (improved_once_then_accepted 4 "X" "Draft" "add benefits" "Final"
                EmptyString second_pass
                {| gen_replies := [Ok "Final"];
                   eval_replies := [raw "needs improvement" "add benefits";
                                    raw "good" EmptyString] |}
                {| gen_replies := [Ok "Final"];
                   eval_replies := [raw "good" EmptyString] |}
                {| gen_replies := [];
                   eval_replies := [raw "good" EmptyString] |}
                {| gen_replies := []; eval_replies := [] |}
                ltac:(lia) eq_refl eq_refl eq_refl eq_refl) as (Hrun & Hg & He & Hp).
  rewrite Hrun at 1. repeat split; assumption.
Defined.

(** C5, as stated, fails: the evaluator's reply has the grade "excellent",
    and [generate_pr_statement] returns the fallback statement; no error is
    raised to the caller. *)
Lemma invalid_grade_is_not_raised :
  structured_completion MODEL (evaluation_prompt "Draft")
    {| gen_replies := []; eval_replies := [raw "excellent" "none"] |}
  = (raw "excellent" "none", {| gen_replies := []; eval_replies := [] |})
  /\ grade_literal "excellent" = false
  /\ outcome (generate_pr_statement DEFAULT_RECURSION_LIMIT ready_service "X"
                bad_grade_run)
     = Ret (fallback_statement "X")
  /\ forall e,
       outcome (generate_pr_statement DEFAULT_RECURSION_LIMIT ready_service "X"
                  bad_grade_run) <> Exc e.
Proof. repeat split. discriminate. Qed.

Lemma invalid_grade_aborts_witness :
  exists e,
    ProviderError e = true
    /\ run_from 1 workflow ready "Evaluate_PR_Statement" drafted bad_grade
       = (Exc e, {| gen_replies := []; eval_replies := [] |},
          [Evaluation (evaluation_prompt "Draft") (Err e)]).
Proof.
  destruct (invalid_grade_aborts 0 drafted
              "Draft" "excellent" (Some "none") bad_grade
              {| gen_replies := []; eval_replies := [] |}
              ltac:(vm_compute; reflexivity) eq_refl eq_refl)
    as (e & He & _ & Hrun & _).
  exists e. split; assumption.
Defined.

Lemma missing_credential_stops_startup_witness :
  serve 3 (fresh_app ∅) ["X"] first_pass
  = (Exc (ValueError "GROQ_API_KEY not found in environment variables"),
     first_pass, []).
Proof.
  apply (missing_credential_stops_startup ∅ uninitialized 3 ["X"] first_pass).
  left. reflexivity.
Defined.

Lemma feedback_is_not_accumulated_witness :
  feedback_chain "X" None
    (calls (generate_pr_statement 4 ready_service "X" second_pass)) = true.
Proof. apply (feedback_is_not_accumulated 4 "X" second_pass). Defined.

Lemma topic_is_preserved_witness :
  exists final,
    outcome (ainvoke 4 workflow ready {[ "topic" := "X" ]} second_pass) = Ret final
    /\ final !! "topic" = Some "X".
Proof.
  eexists. split; [vm_compute; reflexivity|].
  eapply (topic_is_preserved 4 "X" second_pass). vm_compute. reflexivity.
Defined.

Lemma generate_pr_statement_never_raises_witness :
  generate_pr_statement 3 uninitialized "X" provider_down
  = (Ret (fallback_statement "X"), provider_down, []).
Proof.
  apply (generate_pr_statement_never_raises 3 uninitialized "X" provider_down).
  reflexivity.
Defined.

(** * Further properties of the service *)

(** ** Start-up and the HTTP layer *)

Section Http.
Context {World : Type} `{Provider World}.

Lemma generate_pr_statement_no_exception (fuel : nat) (s : Service)
    (topic : string) (w : World) (e : Exception) :
  outcome (generate_pr_statement fuel s topic w) <> Exc e.
Proof.
  unfold generate_pr_statement. rewrite fallback_on_exception.
  destruct (generate_pr_statement_try fuel s topic w) as [[[a|e'|] w'] t];
    discriminate.
Qed.

(** A request with a valid topic to an application whose flag is set: the
    endpoint wraps whatever [generate_pr_statement] returns. *)
Lemma handle_request_initialized (fuel : nat) (app : App) (topic : string)
    (w : World) :
  _pr_generator_initialized app = true -> valid_topic topic = true ->
  handle_request fuel app topic w =
    match generate_pr_statement fuel (service app) topic w with
    | (Ret text, w', t) => (Ret (Json200 (success_body text)), w', t)
    | (Exc e, w', t) =>
        (Ret match e with
             | HTTPException code detail => HttpError code detail
             | _ => HttpError 500 ("Failed to generate PR statement: " +:+ str e)
             end, w', t)
    | (Diverge, w', t) => (Diverge, w', t)
    end.
Proof.
  intros Hflag Hvalid.
  unfold handle_request, generate_pr_statement_endpoint. rewrite Hvalid, Hflag.
  unfold try_except, bind, ret, raise.
  destruct (generate_pr_statement fuel (service app) topic w)
    as [[[text|e|] w'] t]; cbn; rewrite ?app_nil_r; try reflexivity.
  destruct e; cbn; rewrite ?app_nil_r; reflexivity.
Qed.

(** X1: with a non-empty key in the environment, initialisation succeeds
    from any earlier state of the module: both handles are set, the
    evaluator being derived from the generator handle, the workflow is
    built, the environment is the same as before, and [lifespan] sets the
    flag. *)
Theorem startup_initialises_service
    (env : gmap string string) (key : string) (s : Service)
    (Hkey : env !! "GROQ_API_KEY" = Some key) (Hne : key <> EmptyString) :
  initialize_llm env s
  = (Ok tt, env, {| handles := ready; _workflow_graph := _workflow_graph s |})
  /\ initialize_pr_generator env s = (Ok tt, env, ready_service)
  /\ lifespan_startup (fresh_app env) = (Ok tt, started env).
Proof.
  assert (Hget : get_truthy env "GROQ_API_KEY" = Some key)
    by (unfold get_truthy; rewrite Hkey; destruct key; congruence).
  assert (Henv : <[ "GROQ_API_KEY" := key ]> env = env)
    by (apply insert_id; exact Hkey).
  assert (Hllm : forall s' : @Service World, initialize_llm env s' =
            (Ok tt, env, {| handles := ready; _workflow_graph := _workflow_graph s' |}))
    by (intros s'; unfold initialize_llm; rewrite Hget, Henv; reflexivity).
  assert (Hinit : forall s' : @Service World,
            initialize_pr_generator env s' = (Ok tt, env, ready_service))
    by (intros s'; unfold initialize_pr_generator; rewrite Hllm; reflexivity).
  split; [apply Hllm|]. split; [apply Hinit|].
  unfold lifespan_startup. cbn [fresh_app environ service].
  rewrite Hinit. reflexivity.
Qed.

(** X2: while the flag is not set, the endpoint refuses every request with
    status 503 and the detail text of the source, whatever the state of the
    service, and without calling the provider. *)
Theorem uninitialized_app_answers_503
    (fuel : nat) (app : App) (topic : string) (w : World)
    (Hflag : _pr_generator_initialized app = false) :
  generate_pr_statement_endpoint fuel app topic w
  = (Exc (HTTPException 503 "PR Generator Service is not available"), w, [])
  /\ (valid_topic topic = true ->
      handle_request fuel app topic w
      = (Ret (HttpError 503 "PR Generator Service is not available"), w, [])).
Proof.
  assert (Hend : generate_pr_statement_endpoint fuel app topic w
            = (Exc (HTTPException 503 "PR Generator Service is not available"), w, []))
    by (unfold generate_pr_statement_endpoint; rewrite Hflag; reflexivity).
  split; [exact Hend|].
  intros Hvalid. unfold handle_request. rewrite Hvalid.
  unfold try_except, bind. rewrite Hend. reflexivity.
Qed.

(** X3: a failed provider call reaches the client as a success: when the
    first generation call fails, a started application answers a valid
    request with status 200, the fallback statement for the topic and the
    status tag "success", after that single call. *)
Theorem provider_failure_is_answered_with_fallback
    (fuel : nat) (env : gmap string string) (topic : string) (w w' : World)
    (e : Exception)
    (Hfuel : 1 <= fuel)
    (Hvalid : valid_topic topic = true)
    (Hgen : chat_completion MODEL (generation_prompt topic) w = (Err e, w')) :
  handle_request fuel (started env) topic w
  = (Ret (Json200 (success_body (fallback_statement topic))), w',
     [Generation (generation_prompt topic) (Err e)]).
Proof.
  rewrite handle_request_initialized by (reflexivity || exact Hvalid).
  cbn [started service]. rewrite generate_pr_statement_ready.
  destruct fuel as [|fuel]; [lia|].
  rewrite (run_generate _ _ topic) by apply initial_topic.
  rewrite initial_feedback. cbv zeta. cbn [generation_request].
  rewrite Hgen. reflexivity.
Qed.

(** X4: from the environment to the reply: with a key in the environment
    and a provider whose first evaluation accepts the first text, the
    server starts and answers a valid request with status 200 and that
    text, after one generation and one evaluation. *)
Theorem served_statement_end_to_end
    (fuel : nat) (env : gmap string string) (key topic s f : string)
    (w w1 w2 : World)
    (Hkey : env !! "GROQ_API_KEY" = Some key) (Hne : key <> EmptyString)
    (Hfuel : 2 <= fuel)
    (Hvalid : valid_topic topic = true)
    (Hgen : chat_completion MODEL (generation_prompt topic) w = (Ok s, w1))
    (Heval : structured_completion MODEL (evaluation_prompt s) w1
             = (raw "good" f, w2)) :
  serve fuel (fresh_app env) [topic] w
  = (Ret [Json200 (success_body s)], w2,
     [Generation (generation_prompt topic) (Ok s);
      Evaluation (evaluation_prompt s) (Ok (mkFeedback "good" f))]).
Proof.
  unfold serve.
  destruct (startup_initialises_service env key uninitialized Hkey Hne)
    as (_ & _ & ->).
  cbn [handle_all]. unfold bind at 1.
  rewrite handle_request_initialized by (reflexivity || exact Hvalid).
  cbn [started service]. rewrite generate_pr_statement_ready.
  destruct fuel as [|[|fuel]]; try lia.
  rewrite (run_round _ _ topic) by apply initial_topic.
  rewrite initial_feedback. cbv zeta. cbn [generation_request].
  rewrite Hgen, Heval. cbn.
  rewrite evaluated_statement, generated_statement. reflexivity.
Qed.

(** With the service initialised, [generate_pr_statement] returns a text. *)
Lemma generate_pr_statement_returns (fuel : nat) (topic : string) (w : World) :
  exists text w' t,
    generate_pr_statement fuel ready_service topic w = (Ret text, w', t).
Proof.
  pose proof (run_ends topic fuel {[ "topic" := topic ]} w (initial_topic topic))
    as Hend.
  rewrite generate_pr_statement_ready.
  destruct (run_from fuel _ _ _ _ w) as [[[final|e|] w'] t]; cbn in Hend.
  - destruct (final !! "pr_statement"); eauto.
  - eauto.
  - contradiction.
Qed.

Lemma handle_all_answers (fuel : nat) (env : gmap string string)
    (topics : list string) :
  forall (w : World),
    exists replies w' t,
      handle_all fuel (started env) topics w = (Ret replies, w', t)
      /\ Forall2 answered topics replies.
Proof.
  induction topics as [|topic rest IH]; intros w.
  - exists [], w, []. split; [reflexivity | constructor].
  - cbn [handle_all]. unfold bind, ret.
    assert (Hreq : exists reply w' t,
               handle_request fuel (started env) topic w = (Ret reply, w', t)
               /\ answered topic reply).
    { unfold answered. destruct (valid_topic topic) eqn:Hvalid.
      - rewrite handle_request_initialized by (reflexivity || assumption).
        cbn [started service].
        destruct (generate_pr_statement_returns fuel topic w)
          as (text & w' & t & ->).
        eauto 10.
      - unfold handle_request. rewrite Hvalid. unfold ret. eauto 10. }
    destruct Hreq as (reply & w' & t & -> & Hans).
    destruct (IH w') as (replies & w'' & t' & -> & Hall).
    eexists _, _, _. split; [reflexivity|]. constructor; assumption.
Qed.

(** X5: once started, the server answers every request, whatever the
    provider does, and never with a server error: each request with a valid
    topic gets status 200 with the tag "success", each other request gets
    status 422, in the order of the requests. *)
Theorem started_server_answers_every_request
    (fuel : nat) (env : gmap string string) (key : string)
    (topics : list string) (w : World)
    (Hkey : env !! "GROQ_API_KEY" = Some key) (Hne : key <> EmptyString) :
  exists replies,
    outcome (serve fuel (fresh_app env) topics w) = Ret replies
    /\ Forall2 answered topics replies.
Proof.
  unfold serve.
  destruct (startup_initialises_service env key uninitialized Hkey Hne)
    as (_ & _ & ->).
  destruct (handle_all_answers fuel env topics w)
    as (replies & w' & t & -> & Hall).
  exists replies. split; [reflexivity | exact Hall].
Qed.
End Http.

(** ** The order of the calls *)

Lemma generation_calls_generation (p : string) (r : Result string)
    (t : list Event) :
  generation_calls (Generation p r :: t) = S (generation_calls t).
Proof. unfold generation_calls. rewrite filter_cons_True by reflexivity. reflexivity. Qed.

Lemma generation_calls_evaluation (q : string) (r : Result Feedback)
    (t : list Event) :
  generation_calls (Evaluation q r :: t) = generation_calls t.
Proof. unfold generation_calls. rewrite filter_cons_False by discriminate. reflexivity. Qed.

Lemma evaluation_calls_generation (p : string) (r : Result string)
    (t : list Event) :
  evaluation_calls (Generation p r :: t) = evaluation_calls t.
Proof. unfold evaluation_calls. rewrite filter_cons_False by discriminate. reflexivity. Qed.

Lemma evaluation_calls_evaluation (q : string) (r : Result Feedback)
    (t : list Event) :
  evaluation_calls (Evaluation q r :: t) = S (evaluation_calls t).
Proof. unfold evaluation_calls. rewrite filter_cons_True by reflexivity. reflexivity. Qed.

Lemma Run_well_paired (topic : string) (latest : option string)
    (t : list Event) (o : Outcome State) :
  Run topic latest t o -> well_paired t = true.
Proof.
  induction 1; cbn [well_paired]; rewrite ?String.eqb_refl; auto.
Qed.

Lemma Run_counts (topic : string) (latest : option string)
    (t : list Event) (o : Outcome State) :
  Run topic latest t o ->
  evaluation_calls t <= generation_calls t <= S (evaluation_calls t)
  /\ (forall final, o = Ret final -> generation_calls t = evaluation_calls t).
Proof.
  induction 1;
    rewrite ?generation_calls_generation, ?generation_calls_evaluation,
      ?evaluation_calls_generation, ?evaluation_calls_evaluation;
    try (split; [cbn; lia | intros; (discriminate || reflexivity)]).
  destruct IHRun as [Hle Heq]. split; [lia|].
  intros final Hfinal. rewrite (Heq final Hfinal). reflexivity.
Qed.

Lemma Run_empty (topic : string) (latest : option string) (o : Outcome State) :
  Run topic latest [] o -> o = Exc recursion_error.
Proof. inversion 1; reflexivity. Qed.

Lemma Run_head (topic : string) (latest : option string) (ev : Event)
    (t : list Event) (o : Outcome State) :
  Run topic latest (ev :: t) o -> exists p r, ev = Generation p r.
Proof. inversion 1; eauto. Qed.

(** Where a successful evaluation stands in a run: right after the
    generation whose text it reviews; if it graded "good" the run returns
    there with that text, and if not the run goes on with a generation (or
    is stopped there by the step limit). *)
Lemma Run_evaluation (topic : string) (latest : option string)
    (t : list Event) (o : Outcome State) :
  Run topic latest t o ->
  forall pre q d post,
    t = pre ++ Evaluation q (Ok d) :: post ->
    exists pre' p text,
      pre = pre' ++ [Generation p (Ok text)]
      /\ q = evaluation_prompt text
      /\ ((fb_grade d = "good" /\ post = []
           /\ exists final, o = Ret final /\ final !! "pr_statement" = Some text)
          \/ (fb_grade d <> "good"
              /\ ((post = [] /\ o = Exc recursion_error)
                  \/ exists p' r' post', post = Generation p' r' :: post'))).
Proof.
  induction 1; intros pre q d0 post Heq;
    destruct pre as [|x1 [|x2 pre]]; simplify_eq/=;
    try (destruct pre; discriminate).
  - exists [], (generation_request topic latest), s. repeat split. left. eauto.
  - exists [], (generation_request topic latest), s. repeat split. right.
    split; [assumption|]. destruct post as [|ev post].
    + left. split; [reflexivity|]. eapply Run_empty; eassumption.
    + right. destruct (Run_head _ _ _ _ _ H0) as (p' & r' & ->). eauto.
  - destruct (IHRun _ _ _ _ eq_refl) as (pre' & p & text & -> & Hq & Hcase).
    exists (Generation (generation_request topic latest) (Ok s)
              :: Evaluation (evaluation_prompt s) (Ok d) :: pre'), p, text.
    auto.
Qed.

Section Order.
Context {World : Type} `{Provider World}.

(** Every evaluation that succeeded carries a grade of the schema. *)
Lemma run_from_graded (topic : string) (fuel : nat) :
  forall (state : State) (w : World),
    state !! "topic" = Some topic ->
    Forall graded
      (calls (run_from fuel workflow ready "Generate_PR_Statement" state w)).
Proof.
  induction fuel as [fuel IH] using lt_wf_ind. intros state w Htopic.
  destruct fuel as [|[|fuel]].
  - constructor.
  - rewrite (run_one _ _ _ Htopic). cbv zeta.
    destruct (chat_completion MODEL _ w) as [[s|e] w1]; repeat constructor.
  - rewrite (run_round _ _ _ _ Htopic). cbv zeta.
    destruct (chat_completion MODEL _ w) as [[s|e] w1]; [|repeat constructor].
    destruct (structured_completion MODEL _ w1) as [r w2].
    destruct (parse r) as [d|e] eqn:Hparse; [|repeat constructor].
    destruct (parse_Ok _ _ Hparse) as (_ & _ & _ & _ & Hlit).
    rewrite calls_after. repeat constructor; [exact Hlit|].
    destruct (String.eqb (fb_grade d) "good"); [constructor|].
    apply IH; [lia|]. rewrite evaluated_topic, generated_topic. exact Htopic.
Qed.

Lemma calls_generate_pr_statement (fuel : nat) (topic : string) (w : World) :
  calls (generate_pr_statement fuel ready_service topic w)
  = calls (ainvoke fuel workflow ready {[ "topic" := topic ]} w).
Proof.
  rewrite generate_pr_statement_ready, ainvoke_eq.
  destruct (run_from fuel _ _ _ _ w) as [[[final|e|] w'] t]; reflexivity.
Qed.

(** X7: in every run the calls alternate, starting with a generation: each
    evaluation reviews exactly the text that the generation just before it
    returned, nothing follows a failed generation, and so there are as many
    evaluations as generations or one less; as many when the graph
    returns. *)
Theorem calls_alternate (fuel : nat) (topic : string) (w : World) :
  well_paired (calls (generate_pr_statement fuel ready_service topic w)) = true
  /\ evaluation_calls (calls (generate_pr_statement fuel ready_service topic w))
     <= generation_calls (calls (generate_pr_statement fuel ready_service topic w))
     <= S (evaluation_calls (calls (generate_pr_statement fuel ready_service topic w)))
  /\ (forall final,
        outcome (ainvoke fuel workflow ready {[ "topic" := topic ]} w) = Ret final ->
        generation_calls (calls (generate_pr_statement fuel ready_service topic w))
        = evaluation_calls (calls (generate_pr_statement fuel ready_service topic w))).
Proof.
  rewrite calls_generate_pr_statement.
  pose proof (ainvoke_Run fuel topic w) as HR.
  split; [eapply Run_well_paired; exact HR|].
  apply (Run_counts _ _ _ _ HR).
Qed.

(** X8: the grade alone decides.  An evaluation graded "good" is the last
    call of the run, and [generate_pr_statement] returns the text that this
    evaluation reviewed.  An evaluation with any other grade was graded
    "needs improvement", and it is followed by another generation call
    unless the step limit stops the run there, in which case the fallback
    statement is returned. *)
Theorem grade_decides
    (fuel : nat) (topic : string) (w : World)
    (pre post : list Event) (q : string) (d : Feedback)
    (Hcalls : calls (generate_pr_statement fuel ready_service topic w)
              = pre ++ Evaluation q (Ok d) :: post) :
  (fb_grade d = "good" ->
   post = []
   /\ exists pre' p text,
        pre = pre' ++ [Generation p (Ok text)]
        /\ q = evaluation_prompt text
        /\ outcome (generate_pr_statement fuel ready_service topic w) = Ret text)
  /\ (fb_grade d <> "good" ->
      fb_grade d = "needs improvement"
      /\ ((post = []
           /\ outcome (generate_pr_statement fuel ready_service topic w)
              = Ret (fallback_statement topic))
          \/ exists p' r' post', post = Generation p' r' :: post')).
Proof.
  pose proof (ainvoke_Run fuel topic w) as HR.
  pose proof (run_from_graded topic fuel _ w (initial_topic topic)) as Hgr.
  rewrite calls_generate_pr_statement in Hcalls.
  rewrite generate_pr_statement_ready. rewrite ainvoke_eq in HR, Hcalls.
  destruct (run_from fuel _ _ _ _ w) as [[o w'] t]. cbn in HR, Hcalls, Hgr.
  destruct (Run_evaluation _ _ _ _ HR _ _ _ _ Hcalls)
    as (pre' & p & text & -> & -> & Hcase).
  split.
  - intros Hgood. destruct Hcase as [(_ & -> & final & -> & Hs) | (Hne & _)];
      [|contradiction].
    split; [reflexivity|]. exists pre', p, text. rewrite Hs. auto.
  - intros Hne. destruct Hcase as [(Hgood & _) | (_ & Hcase)]; [contradiction|].
    split.
    + rewrite Hcalls in Hgr. apply Forall_app in Hgr as [_ Hgr].
      apply Forall_cons in Hgr as [Hlit _]. cbn in Hlit.
      destruct (grade_literal_cases _ Hlit); [contradiction | assumption].
    + destruct Hcase as [(-> & ->) | Hnext]; [left | right]; auto.
Qed.
End Order.

(** ** The state that a run returns, and how long a run may be *)

Section Rounds.
Context {World : Type} `{Provider World}.

Lemma run_final (topic : string) (fuel : nat) :
  forall (state final : State) (w : World),
    state !! "topic" = Some topic ->
    dom state ⊆ state_keys ->
    outcome (run_from fuel workflow ready "Generate_PR_Statement" state w)
    = Ret final ->
    dom final = state_keys /\ final !! "grade" = Some "good".
Proof.
  induction fuel as [fuel IH] using lt_wf_ind.
  intros state final w Htopic Hdom.
  destruct fuel as [|[|fuel]].
  - discriminate.
  - rewrite (run_one _ _ _ Htopic). cbv zeta.
    destruct (chat_completion MODEL _ w) as [[s|e] w1]; discriminate.
  - rewrite (run_round _ _ _ _ Htopic). cbv zeta.
    destruct (chat_completion MODEL _ w) as [[s|e] w1]; [|discriminate].
    destruct (structured_completion MODEL _ w1) as [r w2].
    destruct (parse r) as [d|e]; [|discriminate].
    rewrite outcome_after.
    assert (Hin : "topic" ∈ dom state) by (apply elem_of_dom; eauto).
    assert (Hdom' : dom (evaluation_update d ∪ ({[ "pr_statement" := s ]} ∪ state))
                    = state_keys).
    { unfold evaluation_update, state_keys in *.
      rewrite !dom_union_L, dom_insert_L, !dom_singleton_L. set_solver. }
    destruct (String.eqb (fb_grade d) "good") eqn:Hgood.
    + apply String.eqb_eq in Hgood. intros [= <-]. split; [exact Hdom'|].
      unfold evaluation_update. rewrite lookup_union, lookup_insert_eq, <- Hgood.
      destruct (_ !! "grade"); reflexivity.
    + apply IH; [lia | | rewrite Hdom'; reflexivity].
      rewrite evaluated_topic, generated_topic. exact Htopic.
Qed.

(** X9: the state that an invocation of the graph returns has the four keys
    of [State] and no other, and its grade is "good". *)
Theorem returned_state_is_complete
    (fuel : nat) (topic : string) (w : World) (final : State)
    (Hfinal : outcome (ainvoke fuel workflow ready {[ "topic" := topic ]} w)
              = Ret final) :
  dom final = state_keys /\ final !! "grade" = Some "good".
Proof.
  rewrite ainvoke_eq in Hfinal.
  eapply run_final; [apply initial_topic | | exact Hfinal].
  unfold state_keys. rewrite dom_singleton_L. set_solver.
Qed.

(** X10: an empty feedback changes nothing in the next prompt.  When the
    first evaluation rejects the text with an empty feedback, the second
    generation call gets the very prompt of the first one. *)
Theorem empty_feedback_repeats_prompt
    (fuel : nat) (topic s1 : string) (w w1 w2 w3 : World) (r : Result string)
    (Hfuel : 3 <= fuel)
    (Hgen1 : chat_completion MODEL (generation_prompt topic) w = (Ok s1, w1))
    (Heval1 : structured_completion MODEL (evaluation_prompt s1) w1
              = (raw "needs improvement" EmptyString, w2))
    (Hgen2 : chat_completion MODEL (generation_prompt topic) w2 = (r, w3)) :
  exists rest,
    calls (generate_pr_statement fuel ready_service topic w)
    = [Generation (generation_prompt topic) (Ok s1);
       Evaluation (evaluation_prompt s1)
         (Ok (mkFeedback "needs improvement" EmptyString));
       Generation (generation_prompt topic) r] ++ rest.
Proof.
  rewrite calls_generate_pr_statement, ainvoke_eq.
  destruct fuel as [|[|[|fuel]]]; try lia.
  rewrite (run_round _ _ topic) by apply initial_topic.
  rewrite initial_feedback. cbv zeta. cbn [generation_request].
  rewrite Hgen1, Heval1. cbn [raw parse Feedback_validate raw_grade raw_feedback].
  change (grade_literal "needs improvement") with true. cbv iota.
  cbn [fb_grade].
  change (String.eqb "needs improvement" "good") with false. cbv iota.
  rewrite calls_after.
  rewrite (run_generate _ _ topic)
    by (rewrite evaluated_topic, generated_topic; apply initial_topic).
  rewrite evaluated_get_feedback. cbv zeta. cbn [fb_feedback truthy generation_request].
  rewrite Hgen2. destruct r as [s2|e].
  - rewrite calls_after. eexists. reflexivity.
  - exists []. reflexivity.
Qed.

End Rounds.


(** ** The further properties on the scenarios *)

Lemma startup_initialises_service_witness :
  lifespan_startup (fresh_app test_env) = (Ok tt, @started Script _ test_env).
Proof.
  apply (startup_initialises_service test_env "test-api-key" uninitialized);
    [vm_compute; reflexivity | discriminate].
Defined.

Lemma uninitialized_app_answers_503_witness :
  generate_pr_statement_endpoint 4 (fresh_app ∅) "X" first_pass
  = (Exc (HTTPException 503 "PR Generator Service is not available"),
     first_pass, []).
Proof.
  apply (uninitialized_app_answers_503 4 (fresh_app ∅) "X" first_pass).
  reflexivity.
Defined.

Lemma provider_failure_is_answered_with_fallback_witness :
  handle_request 4 (started test_env) "X" provider_down
  = (Ret (Json200 (success_body (fallback_statement "X"))),
     {| gen_replies := []; eval_replies := [] |},
     [Generation (generation_prompt "X") (Err (APIError "connection refused"))]).
Proof.
  apply (provider_failure_is_answered_with_fallback 4 test_env "X" provider_down
           {| gen_replies := []; eval_replies := [] |}
           (APIError "connection refused"));
    [lia | reflexivity | reflexivity].
Defined.

Lemma served_statement_end_to_end_witness :
  serve 2 (fresh_app test_env) ["AI-powered chatbot launch"] first_pass
  = (Ret [Json200 (success_body "Statement A")],
     {| gen_replies := []; eval_replies := [] |},
     [Generation (generation_prompt "AI-powered chatbot launch") (Ok "Statement A");
      Evaluation (evaluation_prompt "Statement A")
        (Ok (mkFeedback "good" EmptyString))]).
Proof.
  apply (served_statement_end_to_end 2 test_env "test-api-key"
           "AI-powered chatbot launch" "Statement A" EmptyString first_pass
           {| gen_replies := []; eval_replies := [raw "good" EmptyString] |}
           {| gen_replies := []; eval_replies := [] |});
    [vm_compute; reflexivity | discriminate | lia | reflexivity | reflexivity
    | reflexivity].
Defined.

Lemma started_server_answers_every_request_witness :
  exists replies,
    outcome (serve 4 (fresh_app test_env) ["X"; EmptyString] second_pass)
    = Ret replies
    /\ Forall2 answered ["X"; EmptyString] replies.
Proof.
  apply (@started_server_answers_every_request Script scripted 4 test_env
           "test-api-key" ["X"; EmptyString] second_pass
           ltac:(vm_compute; reflexivity) ltac:(discriminate)).
Defined.

Lemma calls_alternate_witness :
  well_paired (calls (generate_pr_statement 4 ready_service "X" second_pass))
  = true.
Proof. apply (calls_alternate 4 "X" second_pass). Defined.

Lemma grade_decides_witness :
  outcome (generate_pr_statement 2 ready_service "AI-powered chatbot launch"
             first_pass)
  = Ret "Statement A".
Proof.
  destruct (@grade_decides Script scripted 2 "AI-powered chatbot launch" first_pass
              [Generation (generation_prompt "AI-powered chatbot launch")
                 (Ok "Statement A")]
              [] (evaluation_prompt "Statement A")
              (mkFeedback "good" EmptyString)
              ltac:(vm_compute; reflexivity)) as [Hgood _].
  destruct (Hgood eq_refl) as (_ & pre' & p & text & Hpre & _ & Hout).
  destruct (app_inj_tail [] pre' _ _ Hpre) as [_ Heq].
  injection Heq as _ <-. exact Hout.
Defined.

Lemma returned_state_is_complete_witness :
  exists final,
    outcome (ainvoke 4 workflow ready {[ "topic" := "X" ]} second_pass) = Ret final
    /\ dom final = state_keys /\ final !! "grade" = Some "good".
Proof.
  eexists. split; [vm_compute; reflexivity|].
  eapply (returned_state_is_complete 4 "X" second_pass). vm_compute. reflexivity.
Defined.

Lemma empty_feedback_repeats_prompt_witness :
  exists rest,
    calls (generate_pr_statement 4 ready_service "X" silent_rejection)
    = [Generation (generation_prompt "X") (Ok "Draft");
       Evaluation (evaluation_prompt "Draft")
         (Ok (mkFeedback "needs improvement" EmptyString));
       Generation (generation_prompt "X") (Ok "Final")] ++ rest.
Proof.
  apply (empty_feedback_repeats_prompt 4 "X" "Draft" silent_rejection
           {| gen_replies := [Ok "Final"];
              eval_replies := [raw "needs improvement" EmptyString;
                               raw "good" EmptyString] |}
           {| gen_replies := [Ok "Final"];
              eval_replies := [raw "good" EmptyString] |}
           {| gen_replies := [];
              eval_replies := [raw "good" EmptyString] |}
           (Ok "Final"));
    [lia | reflexivity | reflexivity | reflexivity].
Defined.
